(** * sqlalchemy_filters.models: field resolution, model disambiguation and
      join planning

    A shallow embedding of [sqlalchemy_filters/models.py].  Python values
    that the module only passes around (mapped classes, instrumented
    attributes, queries) are modelled by the little the module reads from
    them; exceptions are modelled by an error monad. *)

From Stdlib Require Import String Ascii.
From stdpp Require Import base option list gmap strings.

Local Open Scope string_scope.
Local Open Scope list_scope.

(** ** Python strings: the two operations the module uses *)

Module PyStr.

(** [c in s] for a one-character needle. *)
Fixpoint contains (c : ascii) (s : string) : bool :=
  match s with
  | EmptyString => false
  | String a s' => if Ascii.eqb a c then true else contains c s'
  end.

(** [s.split(sep)] for a one-character separator: every occurrence
    splits, empty pieces are kept, the result is never empty. *)
Fixpoint split (sep : ascii) (s : string) : list string :=
  match s with
  | EmptyString => [EmptyString]
  | String a s' =>
      if Ascii.eqb a sep then EmptyString :: split sep s'
      else match split sep s' with
           | [] => [String a EmptyString]
           | piece :: pieces => String a piece :: pieces
           end
  end.

Definition dot : ascii := "."%char.

End PyStr.

(** ** The mapping layer *)

(** Mapped classes are compared by identity; two classes may carry the same
    [__name__]. *)
Definition class_id := nat.

(** What a name in a class namespace is bound to. *)
Inductive attr :=
| Column
| Relationship (target : class_id)
| Plain.

#[global] Instance attr_eq_dec : EqDecision attr.
Proof. solve_decision. Defined.

(** Entries of [_decl_class_registry]: mapped classes, and module markers
    which have no [__name__]. *)
Inductive registry_entry :=
| RegClass (cls : class_id)
| RegMarker.

Record class_desc := ClassDesc {
  cls_name : string;                          (* [__name__] *)
  cls_attrs : gmap string attr;               (* the class namespace *)
  cls_registry : list registry_entry   (* [_decl_class_registry.values()] *)
}.

(** Python values the module produces or hands to [query.join]. *)
Inductive value :=
| VNone
| VClass (cls : class_id)
| VColumnAttr (owner : class_id) (key : string)
| VRelationshipAttr (owner : class_id) (key : string) (target : class_id)
| VPlainAttr (owner : class_id) (key : string).

#[global] Instance value_eq_dec : EqDecision value.
Proof. solve_decision. Defined.

(** ** Exceptions *)

(** Modelled from the spec: the classes [BadQuery], [FieldNotFound] and
    [BadSpec] of the module [exceptions], which the source imports; the
    other constructors are the built-in and SQLAlchemy exceptions the code
    can meet. *)
Inductive exn :=
| FieldNotFound (model : class_id) (field_name : string)
| BadQuery (msg : string)
| BadSpec (msg : string)
| InvalidRequestError
| ArgumentError
| ValueError
| AttributeError (name : string)
| KeyError (key : string)
| IndexError
| TypeError
| EngineError (code : nat).

#[global] Instance exn_eq_dec : EqDecision exn.
Proof. solve_decision. Defined.

Inductive result (A : Type) :=
| Ok (a : A)
| Raise (e : exn).
Arguments Ok {A} a.
Arguments Raise {A} e.

Definition bind {A B} (r : result A) (k : A -> result B) : result B :=
  match r with
  | Ok a => k a
  | Raise e => Raise e
  end.

Notation "'let*' x ':=' r 'in' k" := (bind r (fun x => k))
  (at level 10, x name, r at level 100, k at level 200).

(** [try: body except InvalidRequestError: pass], where [fallback] is the
    state the handler leaves. *)
Definition try_except_InvalidRequestError {A} (body : result A) (fallback : A)
  : result A :=
  match body with
  | Raise InvalidRequestError => Ok fallback
  | other => other
  end.

(** A [for] loop whose body may raise: the state is threaded through. *)
Fixpoint for_each {A S} (body : S -> A -> result S) (xs : list A) (s : S)
  : result S :=
  match xs with
  | [] => Ok s
  | x :: xs' => let* s' := body s x in for_each body xs' s'
  end.

(** ** Python dictionaries, in insertion order *)

Module PyDict.

(** [d[k] = v]: an existing key keeps its place and takes the new value,
    a new key goes last. *)
Fixpoint set {V} (k : string) (v : V) (d : list (string * V))
  : list (string * V) :=
  match d with
  | [] => [(k, v)]
  | (k', v') :: d' =>
      if String.eqb k' k then (k', v) :: d' else (k', v') :: set k v d'
  end.

Fixpoint get {V} (k : string) (d : list (string * V)) : option V :=
  match d with
  | [] => None
  | (k', v') :: d' => if String.eqb k' k then Some v' else get k d'
  end.

Definition keys {V} (d : list (string * V)) : list string := map fst d.
Definition values {V} (d : list (string * V)) : list V := map snd d.

(** [{key(x): x for x in xs}] *)
Definition comprehension {A V} (key : A -> string) (val : A -> V)
    (xs : list A) : list (string * V) :=
  fold_left (fun d x => set (key x) (val x) d) xs [].

End PyDict.

(** ** Queries and filter nodes *)

(** The two things the module reads from a query: the ['entity'] of every
    column description, which is a mapped class or, for a column that
    belongs to no entity, [None]; and the class of every join entity. *)
Record Query := mkQuery {
  column_descriptions : list (option class_id);
  join_entities : list class_id
}.

(** The list [models] that [get_query_models] collects: the entities of the
    column descriptions, extended with the classes of the join entities. *)
Definition query_entities (query : Query) : list (option class_id) :=
  column_descriptions query ++ map Some (join_entities query).

#[global] Instance Query_eq_dec : EqDecision Query.
Proof. solve_decision. Defined.

(** A filter object: it may expose [filter_spec] (a dict), [filters] (a
    sequence of filter objects), both or neither. *)
#[warning="-register-all"]
Inductive filter_node :=
| FilterNode (node_spec : option (gmap string string))
             (node_filters : option (list filter_node)).

Definition filter_spec (f : filter_node) : option (gmap string string) :=
  match f with FilterNode s _ => s end.

Definition filters (f : filter_node) : option (list filter_node) :=
  match f with FilterNode _ fs => fs end.

(** [hasattr(f, 'filters')] *)
Definition hasattr_filters (f : filter_node) : bool :=
  match filters f with Some _ => true | None => false end.

(** [f.filters], once [hasattr] has answered yes. *)
Definition get_filters (f : filter_node) : list filter_node :=
  match filters f with Some fs => fs | None => [] end.

(** A node cut below its second level: the children of a combinator lose
    whatever [filters] they expose. *)
Definition prune_child (f : filter_node) : filter_node :=
  FilterNode (filter_spec f) None.

Definition prune (f : filter_node) : filter_node :=
  FilterNode (filter_spec f) (map prune_child <$> filters f).

(** ** Field *)

Record Field := mkField {
  model : class_id;
  field_name : string
}.

Section Mapping.

(** [mapper c] is what [inspect(c)] and attribute access on [c] reveal. *)
Variable mapper : class_id -> class_desc.

(** [inspect(model).columns] *)
Definition columns (c : class_id) : gmap string attr :=
  filter (fun kv => kv.2 = Column) (cls_attrs (mapper c)).

(** [inspect(model).relationships] *)
Definition relationships (c : class_id) : gmap string class_id :=
  omap (fun a => match a with Relationship t => Some t | _ => None end)
       (cls_attrs (mapper c)).

(** [name in d.keys()] *)
Definition in_keys {V} (name : string) (d : gmap string V) : bool :=
  bool_decide (name ∈ dom d).

(** [getattr(cls, name)] on a mapped class. *)
Definition getattr (c : class_id) (name : string) : result value :=
  match cls_attrs (mapper c) !! name with
  | Some Column => Ok (VColumnAttr c name)
  | Some (Relationship t) => Ok (VRelationshipAttr c name t)
  | Some Plain => Ok (VPlainAttr c name)
  | None => Raise (AttributeError name)
  end.

(** [sqlalchemy_utils.get_type]: the class behind a relationship
    attribute.  The source only calls it on relationship attributes; other
    arguments do not yield a class. *)
Definition get_type (v : value) : result class_id :=
  match v with
  | VRelationshipAttr _ _ t => Ok t
  | _ => Raise TypeError
  end.

(** [Field.get_sqlalchemy_field] *)
Definition get_sqlalchemy_field (self : Field) : result value :=
  if PyStr.contains PyStr.dot (field_name self) then
    match PyStr.split PyStr.dot (field_name self) with
    | [model_field; related_field] =>
        if in_keys model_field (relationships (model self)) then
          let* a := getattr (model self) model_field in
          let* related_model := get_type a in
          getattr related_model related_field
        else
          Raise (FieldNotFound (model self) (field_name self))
    | _ => Raise ValueError    (* unpacking into two names *)
    end
  else if in_keys (field_name self) (columns (model self)) then
    getattr (model self) (field_name self)
  else
    Raise (FieldNotFound (model self) (field_name self)).

(** One step of the dict comprehension of [get_query_models]:
    [model.__name__] has no value when [model] is [None]. *)
Definition add_model (d : list (string * class_id))
    (model : option class_id) : result (list (string * class_id)) :=
  match model with
  | Some c => Ok (PyDict.set (cls_name (mapper c)) c d)
  | None => Raise (AttributeError "__name__")
  end.

(** [get_query_models] *)
Definition get_query_models (query : Query)
    : result (list (string * class_id)) :=
  let models := query_entities query in
  for_each add_model models [].

(** [get_model_from_spec] *)
Definition get_model_from_spec (spec : gmap string string) (query : Query)
    (default_model : option class_id) : result class_id :=
  let* models := get_query_models query in
  if bool_decide (models = []) then
    Raise (BadQuery "The query does not contain any models.")
  else
    match spec !! "model" with
    | Some model_name =>
        let models :=
          map snd (filter (fun kv => kv.1 = model_name) models) in
        match models with
        | [] =>
            Raise (BadSpec ("The query does not contain model `"
                            +:+ model_name +:+ "`."))
        | m :: _ => Ok m
        end
    | None =>
        if bool_decide (length models = 1) then
          match PyDict.values models with
          | m :: _ => Ok m
          | [] => Raise IndexError
          end
        else
          match default_model with
          | Some d => Ok d
          | None => Raise (BadSpec "Ambiguous spec. Please specify a model.")
          end
    end.

(** [getattr(cls, '__name__', None) == name] *)
Definition name_is (name : string) (e : registry_entry) : bool :=
  match e with
  | RegClass c => String.eqb (cls_name (mapper c)) name
  | RegMarker => false
  end.

(** [get_model_class_by_name]: the loop returns at the first match and the
    function falls off its end, returning [None], when there is none. *)
Fixpoint get_model_class_by_name (registry : list registry_entry)
    (name : string) : value :=
  match registry with
  | [] => VNone
  | cls :: rest =>
      if name_is name cls then
        match cls with RegClass c => VClass c | RegMarker => VNone end
      else get_model_class_by_name rest name
  end.

(** [get_default_model] *)
Definition get_default_model (query : Query) : result (option class_id) :=
  let* models := get_query_models query in
  let query_models := PyDict.values models in
  match query_models with
  | [default_model] => Ok (Some default_model)
  | _ => Ok None
  end.

Section Engine.

(** [query.join(target)]: the query engine either returns the joined
    query or raises. *)
Variable join : Query -> value -> result Query.

(** The inner function [filter_join] of [implicit_join]; [model] is the
    variable it closes over. *)
Definition filter_join (model : class_id) (query : Query)
    (spec : filter_node) : result Query :=
  match filter_spec spec with
  | None => Raise (AttributeError "filter_spec")
  | Some fs =>
      match fs !! "field" with
      | None => Raise (KeyError "field")
      | Some field =>
          if PyStr.contains PyStr.dot field then
            match PyStr.split PyStr.dot field with
            | [field_name; relation_field_name] =>
                let* class_and_field := getattr model field_name in
                try_except_InvalidRequestError
                  (join query class_and_field) query
            | _ => Raise ValueError
            end
          else Ok query
      end
  end.

(** [implicit_join] *)
Definition implicit_join (query : Query) (model : class_id)
    (filters : list filter_node) : result Query :=
  for_each
    (fun query f1 =>
       if hasattr_filters f1 then
         for_each
           (fun query f2 =>
              if hasattr_filters f1 then filter_join model query f2
              else Ok query)
           (get_filters f1) query
       else filter_join model query f1)
    filters query.

(** [model not in get_query_models(query).values()] *)
Definition not_in_query_models (m : value) (query : Query) : result bool :=
  let* models := get_query_models query in
  Ok (negb (bool_decide (m ∈ map VClass (PyDict.values models)))).

(** The body of the loop of [auto_join]. *)
Definition auto_join_step (model_registry : list registry_entry)
    (query : Query) (name : string) : result Query :=
  let m := get_model_class_by_name model_registry name in
  let* absent := not_in_query_models m query in
  if absent then
    try_except_InvalidRequestError (join query m) query
  else Ok query.

(** [auto_join] *)
Definition auto_join (query : Query) (model_names : list string)
    : result Query :=
  let* models := get_query_models query in
  let query_models := PyDict.values models in
  match last query_models with
  | None => Raise IndexError
  | Some any_model =>
      let model_registry := cls_registry (mapper any_model) in
      for_each (auto_join_step model_registry) model_names query
  end.

(** *** The walk of [implicit_join] in the words of its specification

    Every top-level node contributes leaf candidates: its children when it
    exposes [filters], itself otherwise; the leaf rule then runs over the
    candidates in order. *)
Definition leaf_candidates (node : filter_node) : list filter_node :=
  if hasattr_filters node then get_filters node else [node].

Definition plan_leaves (query : Query) (model : class_id)
    (nodes : list filter_node) : result Query :=
  for_each (filter_join model) (concat (map leaf_candidates nodes)) query.

End Engine.

End Mapping.

(** ** A small schema used to run the definitions

    [Customer] has columns [id], [name], a relationship [orders] to [Order]
    and a plain class attribute; [Order] points back through [customer];
    class 3 is a second class that is also called [Order]. *)

Module Shop.

Definition Customer : class_id := 0.
Definition Order : class_id := 1.
Definition Invoice : class_id := 2.
Definition OrderTwin : class_id := 3.

Definition registry : list registry_entry :=
  [RegMarker; RegClass Customer; RegClass Order; RegClass Invoice].

Definition mapper (c : class_id) : class_desc :=
  match c with
  | 0 => ClassDesc "Customer"
           (<["id" := Column]> (<["name" := Column]>
            (<["orders" := Relationship Order]>
            (<["__tablename__" := Plain]> ∅))))
           registry
  | 1 => ClassDesc "Order"
           (<["id" := Column]> (<["total" := Column]>
            (<["customer" := Relationship Customer]> ∅)))
           registry
  | 2 => ClassDesc "Invoice" (<["id" := Column]> ∅) registry
  | _ => ClassDesc "Order" (<["id" := Column]> ∅) registry
  end.

(** An engine that joins a class, or the target of a relationship, unless
    the class is already an entity of the query.  A column attribute is no
    join target, which it reports with [ArgumentError]; [None] cannot be
    inspected, which it reports with an [InvalidRequestError]. *)
Definition join (q : Query) (target : value) : result Query :=
  let add c :=
    if bool_decide (Some c ∈ query_entities q)
    then Raise InvalidRequestError
    else Ok (mkQuery (column_descriptions q) (join_entities q ++ [c])) in
  match target with
  | VClass c => add c
  | VRelationshipAttr _ _ t => add t
  | VColumnAttr _ _ => Raise ArgumentError
  | VNone => Raise InvalidRequestError
  | VPlainAttr _ _ => Raise (EngineError 0)
  end.

(** An engine that has lost its connection: every join fails. *)
Definition broken_join (q : Query) (target : value) : result Query :=
  Raise (EngineError 1).

Definition leaf (field : string) : filter_node :=
  FilterNode (Some (<["field" := field]> ∅)) None.

Definition group (children : list filter_node) : filter_node :=
  FilterNode None (Some children).

End Shop.

(** ** Strings *)

Section StringFacts.

Variable sep : ascii.

Lemma contains_append (a b : string) :
  PyStr.contains sep (a +:+ b)
  = PyStr.contains sep a || PyStr.contains sep b.
Proof.
  induction a as [|x a IH]; simpl; [done|].
  destruct (Ascii.eqb x sep); [done | apply IH].
Qed.

Lemma split_nonempty (s : string) : PyStr.split sep s <> [].
Proof.
  induction s as [|x s IH]; simpl; [done|].
  destruct (Ascii.eqb x sep); [done|].
  destruct (PyStr.split sep s); done.
Qed.

Lemma split_without_sep (s : string) :
  PyStr.contains sep s = false -> PyStr.split sep s = [s].
Proof.
  induction s as [|x s IH]; simpl; [done|].
  destruct (Ascii.eqb x sep); [done|].
  intros H. by rewrite IH.
Qed.

Lemma split_at_first_sep (a b : string) :
  PyStr.contains sep a = false ->
  PyStr.split sep (a +:+ String sep b) = a :: PyStr.split sep b.
Proof.
  induction a as [|x a IH]; simpl.
  - intros _. by rewrite Ascii.eqb_refl.
  - destruct (Ascii.eqb x sep); [done|].
    intros H. by rewrite IH.
Qed.

Lemma split_relation_field (r c : string) :
  PyStr.contains sep r = false ->
  PyStr.contains sep c = false ->
  PyStr.split sep (r +:+ String sep c) = [r; c].
Proof.
  intros Hr Hc. rewrite split_at_first_sep by done.
  by rewrite split_without_sep.
Qed.

Lemma contains_relation_field (r c : string) :
  PyStr.contains sep (r +:+ String sep c) = true.
Proof.
  rewrite contains_append. simpl. rewrite Ascii.eqb_refl.
  apply orb_true_r.
Qed.

End StringFacts.

(** ** Field resolution *)

Section FieldFacts.

Variable mapper : class_id -> class_desc.

Lemma in_keys_true {V} (name : string) (d : gmap string V) :
  in_keys name d = true <-> is_Some (d !! name).
Proof.
  unfold in_keys. rewrite bool_decide_eq_true. apply elem_of_dom.
Qed.

Lemma in_keys_false {V} (name : string) (d : gmap string V) :
  in_keys name d = false <-> d !! name = None.
Proof.
  unfold in_keys. rewrite bool_decide_eq_false, elem_of_dom.
  by rewrite eq_None_not_Some.
Qed.

Lemma columns_lookup (c : class_id) (name : string) :
  is_Some (columns mapper c !! name)
  <-> cls_attrs (mapper c) !! name = Some Column.
Proof.
  unfold columns. split.
  - intros [a Ha]. apply map_lookup_filter_Some in Ha as [Ha Hc].
    simpl in Hc. by subst.
  - intros H. exists Column. by apply map_lookup_filter_Some.
Qed.

Lemma relationships_lookup (c : class_id) (name : string) (t : class_id) :
  relationships mapper c !! name = Some t
  <-> cls_attrs (mapper c) !! name = Some (Relationship t).
Proof.
  unfold relationships. rewrite lookup_omap.
  destruct (cls_attrs (mapper c) !! name) as [[| t' |]|]; simpl;
    split; intros H; by simplify_eq.
Qed.

Lemma getattr_column (c : class_id) (name : string) :
  name ∈ dom (columns mapper c) ->
  getattr mapper c name = Ok (VColumnAttr c name).
Proof.
  intros H. apply elem_of_dom, columns_lookup in H.
  unfold getattr. by rewrite H.
Qed.

(** C1: an undotted column name of the model resolves to that column on
    the model, and [R.C], with [R] a relationship of the model to [N] and
    [C] a column name of [N], resolves to the column [C] on [N]. *)
Theorem resolve_supported_shapes (M N : class_id) (F R C : string) :
  (PyStr.contains PyStr.dot F = false ->
   F ∈ dom (columns mapper M) ->
   get_sqlalchemy_field mapper (mkField M F) = Ok (VColumnAttr M F))
  /\
  (PyStr.contains PyStr.dot R = false ->
   PyStr.contains PyStr.dot C = false ->
   relationships mapper M !! R = Some N ->
   C ∈ dom (columns mapper N) ->
   get_sqlalchemy_field mapper (mkField M (R +:+ "." +:+ C))
   = Ok (VColumnAttr N C)).
Proof.
  split.
  - intros Hdot Hcol. unfold get_sqlalchemy_field.
    cbn [field_name model]. rewrite Hdot.
    assert (in_keys F (columns mapper M) = true) as ->
      by (by apply in_keys_true, elem_of_dom).
    by apply getattr_column.
  - intros HR HC Hrel Hcol. unfold get_sqlalchemy_field.
    cbn [field_name model].
    change ("." +:+ C) with (String PyStr.dot C).
    rewrite contains_relation_field, split_relation_field by done.
    assert (in_keys R (relationships mapper M) = true) as ->
      by (apply in_keys_true; eauto).
    apply relationships_lookup in Hrel.
    unfold getattr at 1. rewrite Hrel. simpl.
    by apply getattr_column.
Qed.

End FieldFacts.

Lemma resolve_supported_shapes_witness :
  get_sqlalchemy_field Shop.mapper (mkField Shop.Customer "name")
  = Ok (VColumnAttr Shop.Customer "name")
  /\ get_sqlalchemy_field Shop.mapper (mkField Shop.Customer "orders.total")
     = Ok (VColumnAttr Shop.Order "total").
Proof.
  destruct (resolve_supported_shapes Shop.mapper Shop.Customer Shop.Order
              "name" "orders" "total") as [H1 H2].
  split.
  - apply H1; [reflexivity|].
    apply elem_of_dom. eexists. vm_compute. reflexivity.
  - apply H2; [reflexivity | reflexivity | vm_compute; reflexivity |].
    apply elem_of_dom. eexists. vm_compute. reflexivity.
Defined.

(** C2: what the resolver does on names that do not resolve.  A name with
    two separators fails in the unpacking of [split], a dotted name whose
    field segment is unknown to the related class fails in [getattr], and a
    field segment that names a relationship of the related class resolves;
    none of the three ends in [FieldNotFound]. *)
Theorem resolve_failures_evaluated :
  get_sqlalchemy_field Shop.mapper (mkField Shop.Customer "orders.total.x")
  = Raise ValueError
  /\ get_sqlalchemy_field Shop.mapper (mkField Shop.Customer "orders.missing")
     = Raise (AttributeError "missing")
  /\ get_sqlalchemy_field Shop.mapper (mkField Shop.Customer "orders.customer")
     = Ok (VRelationshipAttr Shop.Order "customer" Shop.Customer)
  /\ get_sqlalchemy_field Shop.mapper (mkField Shop.Customer "missing")
     = Raise (FieldNotFound Shop.Customer "missing")
  /\ get_sqlalchemy_field Shop.mapper (mkField Shop.Customer "nope.total")
     = Raise (FieldNotFound Shop.Customer "nope.total").
Proof. repeat split; vm_compute; reflexivity. Qed.

(** The two guarded paths do end in [FieldNotFound]. *)
Lemma resolve_guarded_failures (mapper : class_id -> class_desc)
    (M : class_id) (F R C : string) :
  (PyStr.contains PyStr.dot F = false ->
   F ∉ dom (columns mapper M) ->
   get_sqlalchemy_field mapper (mkField M F) = Raise (FieldNotFound M F))
  /\
  (PyStr.contains PyStr.dot R = false ->
   PyStr.contains PyStr.dot C = false ->
   relationships mapper M !! R = None ->
   get_sqlalchemy_field mapper (mkField M (R +:+ "." +:+ C))
   = Raise (FieldNotFound M (R +:+ "." +:+ C))).
Proof.
  split.
  - intros Hdot Hcol. unfold get_sqlalchemy_field.
    cbn [field_name model]. rewrite Hdot.
    assert (in_keys F (columns mapper M) = false) as ->
      by (by apply in_keys_false, not_elem_of_dom).
    done.
  - intros HR HC Hrel. unfold get_sqlalchemy_field.
    cbn [field_name model].
    change ("." +:+ C) with (String PyStr.dot C).
    rewrite contains_relation_field, split_relation_field by done.
    by assert (in_keys R (relationships mapper M) = false) as ->
      by (by apply in_keys_false).
Qed.

(** ** Dictionaries *)

Section DictFacts.

Context {V : Type}.
Implicit Types (d : list (string * V)) (k : string) (v : V).

Lemma get_set_eq k v d : PyDict.get k (PyDict.set k v d) = Some v.
Proof.
  induction d as [|[k' v'] d IH]; simpl.
  - by rewrite String.eqb_refl.
  - destruct (String.eqb k' k) eqn:E; simpl; rewrite E; [done | apply IH].
Qed.

Lemma get_set_ne k k' v d :
  k <> k' -> PyDict.get k' (PyDict.set k v d) = PyDict.get k' d.
Proof.
  intros Hne. induction d as [|[k0 v0] d IH]; simpl.
  - by apply String.eqb_neq in Hne as ->.
  - destruct (String.eqb k0 k) eqn:E; simpl.
    + apply String.eqb_eq in E as ->.
      by apply String.eqb_neq in Hne as ->.
    + by rewrite IH.
Qed.

Lemma keys_set k v d :
  PyDict.keys (PyDict.set k v d)
  = if bool_decide (k ∈ PyDict.keys d) then PyDict.keys d
    else PyDict.keys d ++ [k].
Proof.
  induction d as [|[k0 v0] d IH]; simpl; [done|].
  destruct (String.eqb k0 k) eqn:E; simpl.
  - apply String.eqb_eq in E as ->.
    rewrite bool_decide_eq_true_2 by left. done.
  - apply String.eqb_neq in E. rewrite IH.
    destruct (decide (k ∈ PyDict.keys d)) as [Hin|Hout].
    + rewrite !bool_decide_eq_true_2; [done | by right | done].
    + rewrite !bool_decide_eq_false_2; [done | | done].
      intros [->|?]%elem_of_cons; done.
Qed.

Lemma NoDup_keys_set k v d :
  NoDup (PyDict.keys d) -> NoDup (PyDict.keys (PyDict.set k v d)).
Proof.
  intros Hd. rewrite keys_set. case_bool_decide as Hin; [done|].
  apply NoDup_app. repeat split; [done | | apply NoDup_singleton].
  intros x Hx ->%list_elem_of_singleton. done.
Qed.

Lemma elem_of_set k v d (kv : string * V) :
  kv ∈ PyDict.set k v d -> kv = (k, v) \/ kv ∈ d.
Proof.
  induction d as [|[k0 v0] d IH]; simpl.
  - intros ->%list_elem_of_singleton. by left.
  - destruct (String.eqb k0 k) eqn:E.
    + apply String.eqb_eq in E as ->.
      intros [->|?]%elem_of_cons; [by left | right; by right].
    + intros [->|H]%elem_of_cons; [right; by left|].
      destruct (IH H) as [?|?]; [by left | right; by right].
Qed.

Lemma set_nonempty k v d : PyDict.set k v d <> [].
Proof.
  destruct d as [|[k0 v0] d]; simpl; [done|].
  by destruct (String.eqb k0 k).
Qed.

Lemma get_Some_elem_of k v d : PyDict.get k d = Some v -> (k, v) ∈ d.
Proof.
  induction d as [|[k0 v0] d IH]; simpl; [done|].
  destruct (String.eqb k0 k) eqn:E.
  - apply String.eqb_eq in E as ->. intros [= ->]. by left.
  - intros H. right. by apply IH.
Qed.

(** The comprehension [[v for (k, v) in d.items() if k == name]] starts
    with the entry of [name], when there is one. *)
Lemma items_named_head k d :
  head (map snd (filter (fun kv : string * V => kv.1 = k) d))
  = PyDict.get k d.
Proof.
  induction d as [|[k0 v0] d IH]; simpl; [done|].
  rewrite filter_cons. simpl.
  destruct (String.eqb k0 k) eqn:E.
  - apply String.eqb_eq in E as ->. by rewrite decide_True.
  - apply String.eqb_neq in E. by rewrite decide_False.
Qed.

Context {A : Type} (key : A -> string) (val : A -> V).

Lemma comprehension_snoc (xs : list A) (x : A) :
  PyDict.comprehension key val (xs ++ [x])
  = PyDict.set (key x) (val x) (PyDict.comprehension key val xs).
Proof. unfold PyDict.comprehension. by rewrite fold_left_app. Qed.

Lemma comprehension_keys_NoDup (xs : list A) :
  NoDup (PyDict.keys (PyDict.comprehension key val xs)).
Proof.
  induction xs as [|x xs IH] using rev_ind.
  - apply NoDup_nil_2.
  - rewrite comprehension_snoc. by apply NoDup_keys_set.
Qed.

Lemma comprehension_get (xs : list A) (k : string) :
  PyDict.get k (PyDict.comprehension key val xs)
  = val <$> find (fun x => String.eqb (key x) k) (rev xs).
Proof.
  induction xs as [|x xs IH] using rev_ind; [done|].
  rewrite comprehension_snoc, rev_unit. simpl.
  destruct (String.eqb (key x) k) eqn:E.
  - apply String.eqb_eq in E as <-. apply get_set_eq.
  - apply String.eqb_neq in E. by rewrite get_set_ne.
Qed.

Lemma comprehension_elem_of (xs : list A) (kv : string * V) :
  kv ∈ PyDict.comprehension key val xs ->
  exists x, x ∈ xs /\ kv = (key x, val x).
Proof.
  revert kv. induction xs as [|x xs IH] using rev_ind; intros kv.
  - by intros ?%elem_of_nil.
  - rewrite comprehension_snoc. intros [->|H]%elem_of_set.
    + exists x. split; [|done]. apply elem_of_app. right. by left.
    + destruct (IH _ H) as (y & Hy & ->). exists y. split; [|done].
      apply elem_of_app. by left.
Qed.

Lemma comprehension_empty (xs : list A) :
  PyDict.comprehension key val xs = [] <-> xs = [].
Proof.
  split; [|by intros ->].
  destruct xs as [|x xs] using rev_ind; [done|].
  rewrite comprehension_snoc. intros H. by apply set_nonempty in H.
Qed.

End DictFacts.

(** ** The models of a query *)

Lemma NoDup_map_inj_on {A B} (f : A -> B) (l : list A) (x y : A) :
  NoDup (map f l) -> x ∈ l -> y ∈ l -> f x = f y -> x = y.
Proof.
  induction l as [|a l IH]; simpl; [by intros _ ?%elem_of_nil|].
  intros [Ha Hl]%NoDup_cons [->|Hx]%elem_of_cons [->|Hy]%elem_of_cons Hf;
    [done | | | by apply IH].
  - exfalso. apply Ha. rewrite Hf. by apply (list_elem_of_fmap_2 f).
  - exfalso. apply Ha. rewrite <- Hf. by apply (list_elem_of_fmap_2 f).
Qed.

Lemma elem_of_rev {A} (l : list A) (x : A) : x ∈ rev l <-> x ∈ l.
Proof. rewrite !list_elem_of_In. symmetry. apply in_rev. Qed.

Lemma find_last_named {A} (p : A -> bool) (l : list A) (x : A) :
  x ∈ l -> p x = true -> exists y, find p l = Some y /\ y ∈ l /\ p y = true.
Proof.
  intros Hx Hp. destruct (find p l) as [y|] eqn:E.
  - exists y. split; [done|]. apply find_some in E as [Hy ?].
    by apply list_elem_of_In in Hy.
  - apply list_elem_of_In in Hx. pose proof (find_none _ _ E _ Hx). congruence.
Qed.

Section QueryFacts.

Variable mapper : class_id -> class_desc.

(** On entities that are all classes the loop of [get_query_models] is the
    comprehension over the classes. *)
Lemma add_models_classes (cs : list class_id) (d : list (string * class_id)) :
  for_each (add_model mapper) (map Some cs) d
  = Ok (fold_left (fun d c => PyDict.set (cls_name (mapper c)) c d) cs d).
Proof.
  revert d. induction cs as [|c cs IH]; intros d; simpl; [done | apply IH].
Qed.

Lemma add_models_none (es : list (option class_id))
    (d : list (string * class_id)) :
  None ∈ es ->
  for_each (add_model mapper) es d = Raise (AttributeError "__name__").
Proof.
  revert d. induction es as [|[c|] es IH]; intros d Hin; simpl.
  - by apply elem_of_nil in Hin.
  - apply IH. by apply elem_of_cons in Hin as [?|?].
  - done.
Qed.

Lemma entities_classes_or_none (es : list (option class_id)) :
  (exists cs : list class_id, es = map Some cs) \/ None ∈ es.
Proof.
  induction es as [|[c|] es [[cs ->]|IH]].
  - left. by exists [].
  - left. by exists (c :: cs).
  - right. by right.
  - right. left.
  - right. left.
Qed.

Lemma classes_without_none (cs : list class_id) : None ∉ map Some cs.
Proof. by intros (c & ? & _)%list_elem_of_fmap_1. Qed.

Lemma query_models_classes (q : Query) (cs : list class_id) :
  query_entities q = map Some cs ->
  get_query_models mapper q
  = Ok (PyDict.comprehension (fun m => cls_name (mapper m)) (fun m => m) cs).
Proof.
  intros Hcs. unfold get_query_models. rewrite Hcs. apply add_models_classes.
Qed.

Lemma query_models_Ok (q : Query) (d : list (string * class_id)) :
  get_query_models mapper q = Ok d
  <-> exists cs : list class_id,
        query_entities q = map Some cs
        /\ d = PyDict.comprehension
                 (fun m => cls_name (mapper m)) (fun m => m) cs.
Proof.
  split.
  - intros Hd. destruct (entities_classes_or_none (query_entities q))
      as [[cs Hcs]|Hnone].
    + exists cs. split; [done|].
      rewrite (query_models_classes _ _ Hcs) in Hd. congruence.
    + unfold get_query_models in Hd.
      by rewrite (add_models_none _ _ Hnone) in Hd.
  - intros (cs & Hcs & ->). by apply query_models_classes.
Qed.

Lemma query_models_Raise (q : Query) (e : exn) :
  get_query_models mapper q = Raise e
  <-> e = AttributeError "__name__" /\ None ∈ query_entities q.
Proof.
  split.
  - intros He. destruct (entities_classes_or_none (query_entities q))
      as [[cs Hcs]|Hnone].
    + by rewrite (query_models_classes _ _ Hcs) in He.
    + unfold get_query_models in He.
      rewrite (add_models_none _ _ Hnone) in He. split; congruence.
  - intros [-> Hnone]. by apply add_models_none.
Qed.

Lemma none_entity_is_column (q : Query) :
  None ∈ query_entities q <-> None ∈ column_descriptions q.
Proof.
  unfold query_entities. rewrite elem_of_app. split; [|by left].
  intros [?|Hj]; [done|]. by apply classes_without_none in Hj.
Qed.

Lemma query_models_empty (q : Query) :
  get_query_models mapper q = Ok []
  <-> column_descriptions q = [] /\ join_entities q = [].
Proof.
  rewrite query_models_Ok. split.
  - intros (cs & Hcs & Hd). symmetry in Hd.
    apply comprehension_empty in Hd as ->. simpl in Hcs.
    apply app_eq_nil in Hcs as [? Hj]. split; [done|].
    by apply fmap_nil_inv in Hj.
  - intros [H1 H2]. exists []. unfold query_entities. by rewrite H1, H2.
Qed.

Lemma query_models_get (q : Query) (cs : list class_id)
    (d : list (string * class_id)) (n : string) :
  query_entities q = map Some cs ->
  get_query_models mapper q = Ok d ->
  PyDict.get n d
  = find (fun m => String.eqb (cls_name (mapper m)) n) (rev cs).
Proof.
  intros Hcs Hd. rewrite (query_models_classes _ _ Hcs) in Hd.
  injection Hd as <-. rewrite comprehension_get. apply option_fmap_id.
Qed.

Lemma query_models_entry (q : Query) (d : list (string * class_id))
    (n : string) (m : class_id) :
  get_query_models mapper q = Ok d ->
  (n, m) ∈ d ->
  Some m ∈ query_entities q /\ n = cls_name (mapper m).
Proof.
  intros (cs & Hcs & ->)%query_models_Ok
         (x & Hx & [= -> ->])%comprehension_elem_of.
  split; [|done]. rewrite Hcs. by apply (list_elem_of_fmap_2 Some).
Qed.

Lemma query_models_value (q : Query) (d : list (string * class_id))
    (m : class_id) :
  get_query_models mapper q = Ok d ->
  m ∈ PyDict.values d ->
  Some m ∈ query_entities q.
Proof.
  intros Hd ([n m'] & -> & Hin)%list_elem_of_fmap_1.
  by destruct (query_models_entry _ _ _ _ Hd Hin).
Qed.

(** X21: on a query whose column descriptions all have an entity,
    [get_query_models] returns a mapping with one entry per name; the entry
    of a name is the last model collected under that name, the selected
    entities being collected before the joined ones; every entry is a
    collected model under its own name; and when the collected models have
    distinct names the entries are exactly the collected models. *)
Theorem query_models_mapping (q : Query) (models : list class_id) :
  query_entities q = map Some models ->
  exists d : list (string * class_id),
    get_query_models mapper q = Ok d
    /\ NoDup (PyDict.keys d)
    /\ (forall n : string,
          PyDict.get n d
          = find (fun m => String.eqb (cls_name (mapper m)) n) (rev models))
    /\ (forall (n : string) (m : class_id),
          (n, m) ∈ d -> m ∈ models /\ n = cls_name (mapper m))
    /\ (NoDup (map (fun m => cls_name (mapper m)) models) ->
        forall m : class_id,
          m ∈ models <-> PyDict.get (cls_name (mapper m)) d = Some m).
Proof.
  intros Hmodels. eexists. split; [by apply query_models_classes|].
  assert (forall n m,
            (n, m) ∈ PyDict.comprehension
                       (fun m => cls_name (mapper m)) (fun m => m) models ->
            m ∈ models /\ n = cls_name (mapper m)) as Hentries.
  { intros n m (x & Hx & [= -> ->])%comprehension_elem_of. done. }
  split; [apply comprehension_keys_NoDup|].
  split; [intros n; rewrite comprehension_get; apply option_fmap_id|].
  split; [done|].
  intros Hnames m. split.
  - intros Hm. rewrite comprehension_get, option_fmap_id.
    destruct (find_last_named
                (fun m' =>
                   String.eqb (cls_name (mapper m')) (cls_name (mapper m)))
                (rev models) m) as (y & -> & Hy & Hname).
    + by apply elem_of_rev.
    + apply String.eqb_refl.
    + f_equal. apply String.eqb_eq in Hname.
      apply (NoDup_map_inj_on _ _ _ _ Hnames); [|done|done].
      by apply elem_of_rev.
  - intros Hget%get_Some_elem_of. by apply Hentries in Hget as [? _].
Qed.

(** X22: [get_query_models] raises exactly when a column description of
    the query has no entity, and what it raises is the [AttributeError] of
    reading [__name__] on [None]. *)
Theorem query_models_raises_iff (q : Query) (e : exn) :
  get_query_models mapper q = Raise e
  <-> e = AttributeError "__name__" /\ None ∈ column_descriptions q.
Proof.
  by rewrite query_models_Raise, none_entity_is_column.
Qed.

(** ** Model disambiguation *)

(** C3: a spec that names a model, on a query with models: the entry of that
    name in the query's models is returned, and a name without entry is a
    [BadSpec]; the default model plays no part. *)
Theorem explicit_model_resolution (spec : gmap string string) (q : Query)
    (default_model : option class_id) (model_name : string)
    (models : list (string * class_id)) :
  spec !! "model" = Some model_name ->
  get_query_models mapper q = Ok models ->
  models <> [] ->
  (forall m : class_id,
     PyDict.get model_name models = Some m ->
     get_model_from_spec mapper spec q default_model = Ok m)
  /\ (PyDict.get model_name models = None ->
      get_model_from_spec mapper spec q default_model
      = Raise (BadSpec ("The query does not contain model `"
                        +:+ model_name +:+ "`."))).
Proof.
  intros Hspec Hmodels Hne. unfold get_model_from_spec.
  rewrite Hmodels. simpl.
  rewrite bool_decide_eq_false_2 by done. rewrite Hspec.
  pose proof (items_named_head model_name models) as Hhead.
  destruct (map snd (filter _ models)) as [|m0 ms];
    simpl in Hhead; split.
  - intros m Hm. congruence.
  - done.
  - intros m Hm. congruence.
  - intros Hnone. congruence.
Qed.

(** C4: a spec that names no model, on a query with models: the only model
    of a one-model query is returned whatever the default; with several
    models the default is returned when there is one, and the spec is
    ambiguous, a [BadSpec], when there is none. *)
Theorem implicit_model_resolution (spec : gmap string string) (q : Query)
    (default_model : option class_id) (models : list (string * class_id)) :
  spec !! "model" = None ->
  get_query_models mapper q = Ok models ->
  models <> [] ->
  (forall (n : string) (m : class_id),
     models = [(n, m)] ->
     get_model_from_spec mapper spec q default_model = Ok m)
  /\ (forall d : class_id,
        1 < length models ->
        default_model = Some d ->
        get_model_from_spec mapper spec q default_model = Ok d)
  /\ (1 < length models ->
      default_model = None ->
      get_model_from_spec mapper spec q default_model
      = Raise (BadSpec "Ambiguous spec. Please specify a model.")).
Proof.
  intros Hspec Hmodels Hne. unfold get_model_from_spec.
  rewrite Hmodels. simpl.
  rewrite bool_decide_eq_false_2 by done. rewrite Hspec.
  split; [|split].
  - intros n m ->. done.
  - intros d Hlen ->. rewrite bool_decide_eq_false_2 by lia. done.
  - intros Hlen ->. rewrite bool_decide_eq_false_2 by lia. done.
Qed.

(** C5: on a query without models every spec, with any default, is refused
    with [BadQuery]. *)
Theorem empty_query_is_bad_query (spec : gmap string string) (q : Query)
    (default_model : option class_id) :
  get_query_models mapper q = Ok [] ->
  get_model_from_spec mapper spec q default_model
  = Raise (BadQuery "The query does not contain any models.").
Proof.
  intros Hempty. unfold get_model_from_spec. by rewrite Hempty.
Qed.

End QueryFacts.

(** C7: the mapping is not returned for every query.  A column description
    that belongs to no entity, as that of an aggregate, has [None] under
    ['entity'], and reading [__name__] on it raises [AttributeError],
    whether or not the query also has models. *)
Theorem query_models_none_entity :
  get_query_models Shop.mapper (mkQuery [None] [])
  = Raise (AttributeError "__name__")
  /\ get_query_models Shop.mapper
       (mkQuery [Some Shop.Customer; None] [Shop.Order])
     = Raise (AttributeError "__name__").
Proof. split; vm_compute; reflexivity. Qed.

Lemma query_models_mapping_witness :
  exists d : list (string * class_id),
    get_query_models Shop.mapper
      (mkQuery [Some Shop.Customer; Some Shop.Order] [Shop.OrderTwin])
    = Ok d
    /\ PyDict.get "Order" d = Some Shop.OrderTwin
    /\ PyDict.get "Customer" d = Some Shop.Customer.
Proof.
  destruct (query_models_mapping Shop.mapper
              (mkQuery [Some Shop.Customer; Some Shop.Order] [Shop.OrderTwin])
              [Shop.Customer; Shop.Order; Shop.OrderTwin] eq_refl)
    as (d & Hd & _ & Hget & _).
  exists d. split; [exact Hd|]. rewrite !Hget. split; reflexivity.
Defined.

Lemma query_models_raises_iff_witness :
  get_query_models Shop.mapper (mkQuery [Some Shop.Customer; None] [])
  = Raise (AttributeError "__name__").
Proof.
  apply (query_models_raises_iff Shop.mapper). split; [reflexivity|].
  right. left.
Defined.

Lemma explicit_model_resolution_witness :
  get_model_from_spec Shop.mapper
    (<["model" := "Order"]> (<["field" := "total"]> ∅))
    (mkQuery [Some Shop.Customer] [Shop.Order]) (Some Shop.Invoice)
  = Ok Shop.Order
  /\ get_model_from_spec Shop.mapper
       (<["model" := "Invoice"]> (<["field" := "id"]> ∅))
       (mkQuery [Some Shop.Customer] [Shop.Order]) (Some Shop.Invoice)
     = Raise (BadSpec "The query does not contain model `Invoice`.").
Proof.
  split.
  - apply (explicit_model_resolution Shop.mapper _ _ _ "Order"
             [("Customer", Shop.Customer); ("Order", Shop.Order)]);
      [vm_compute; reflexivity | vm_compute; reflexivity | discriminate
      | vm_compute; reflexivity].
  - apply (explicit_model_resolution Shop.mapper _ _ _ "Invoice"
             [("Customer", Shop.Customer); ("Order", Shop.Order)]);
      [vm_compute; reflexivity | vm_compute; reflexivity | discriminate
      | vm_compute; reflexivity].
Defined.

Lemma implicit_model_resolution_witness :
  get_model_from_spec Shop.mapper (<["field" := "name"]> ∅)
    (mkQuery [Some Shop.Customer] []) (Some Shop.Invoice)
  = Ok Shop.Customer
  /\ get_model_from_spec Shop.mapper (<["field" := "name"]> ∅)
       (mkQuery [Some Shop.Customer] [Shop.Order]) (Some Shop.Invoice)
     = Ok Shop.Invoice
  /\ get_model_from_spec Shop.mapper (<["field" := "name"]> ∅)
       (mkQuery [Some Shop.Customer] [Shop.Order]) None
     = Raise (BadSpec "Ambiguous spec. Please specify a model.").
Proof.
  split; [|split].
  - destruct (implicit_model_resolution Shop.mapper (<["field" := "name"]> ∅)
                (mkQuery [Some Shop.Customer] []) (Some Shop.Invoice)
                [("Customer", Shop.Customer)])
      as (Hone & _);
      [vm_compute; reflexivity | vm_compute; reflexivity | discriminate|].
    apply (Hone "Customer"). reflexivity.
  - destruct (implicit_model_resolution Shop.mapper (<["field" := "name"]> ∅)
                (mkQuery [Some Shop.Customer] [Shop.Order])
                (Some Shop.Invoice)
                [("Customer", Shop.Customer); ("Order", Shop.Order)])
      as (_ & Hdefault & _);
      [vm_compute; reflexivity | vm_compute; reflexivity | discriminate|].
    apply Hdefault; [simpl; lia | reflexivity].
  - destruct (implicit_model_resolution Shop.mapper (<["field" := "name"]> ∅)
                (mkQuery [Some Shop.Customer] [Shop.Order]) None
                [("Customer", Shop.Customer); ("Order", Shop.Order)])
      as (_ & _ & Hambiguous);
      [vm_compute; reflexivity | vm_compute; reflexivity | discriminate|].
    apply Hambiguous; [simpl; lia | reflexivity].
Defined.

Lemma empty_query_is_bad_query_witness :
  get_model_from_spec Shop.mapper (<["model" := "Order"]> ∅)
    (mkQuery [] []) (Some Shop.Order)
  = Raise (BadQuery "The query does not contain any models.").
Proof.
  apply empty_query_is_bad_query. vm_compute. reflexivity.
Defined.

(** ** Loops *)

Lemma for_each_app {A S} (body : S -> A -> result S) (xs ys : list A) (s : S) :
  for_each body (xs ++ ys) s
  = let* s' := for_each body xs s in for_each body ys s'.
Proof.
  revert s. induction xs as [|x xs IH]; intros s; simpl; [done|].
  destruct (body s x); simpl; [apply IH | done].
Qed.

Lemma for_each_map {A B S} (body : S -> B -> result S) (h : A -> B)
    (body' : S -> A -> result S) (xs : list A) (s : S) :
  (forall s x, body s (h x) = body' s x) ->
  for_each body (map h xs) s = for_each body' xs s.
Proof.
  intros Hbody. revert s. induction xs as [|x xs IH]; intros s; simpl; [done|].
  rewrite Hbody. destruct (body' s x); simpl; [apply IH | done].
Qed.

(** ** Join planning *)

Section JoinFacts.

Variable mapper : class_id -> class_desc.
Variable join : Query -> value -> result Query.

Lemma filter_join_reads_spec (model : class_id) (q : Query)
    (f g : filter_node) :
  filter_spec f = filter_spec g ->
  filter_join mapper join model q f = filter_join mapper join model q g.
Proof. intros H. unfold filter_join. by rewrite H. Qed.

Lemma implicit_join_cons (q : Query) (model : class_id) (f1 : filter_node)
    (rest : list filter_node) :
  implicit_join mapper join q model (f1 :: rest)
  = let* q' :=
      for_each (filter_join mapper join model) (leaf_candidates f1) q in
    implicit_join mapper join q' model rest.
Proof.
  unfold implicit_join, leaf_candidates. simpl.
  destruct (hasattr_filters f1); simpl; [done|].
  by destruct (filter_join mapper join model q f1).
Qed.

Lemma implicit_join_flat (q : Query) (model : class_id)
    (nodes : list filter_node) :
  implicit_join mapper join q model nodes
  = for_each (filter_join mapper join model)
      (concat (map leaf_candidates nodes)) q.
Proof.
  revert q. induction nodes as [|f1 rest IH]; intros q; [done|].
  rewrite implicit_join_cons. simpl. rewrite for_each_app.
  destruct (for_each _ (leaf_candidates f1) q); simpl; [apply IH | done].
Qed.

Lemma leaf_candidates_prune (model : class_id) (q : Query) (f1 : filter_node) :
  for_each (filter_join mapper join model) (leaf_candidates (prune f1)) q
  = for_each (filter_join mapper join model) (leaf_candidates f1) q.
Proof.
  destruct f1 as [s [children|]]; unfold leaf_candidates; simpl.
  - by apply for_each_map.
  - done.
Qed.

(** C8: the walk is the leaf rule run over the leaf candidates of the
    top-level nodes in order, the candidates of a node that exposes
    [filters] being its children and those of any other node being the node
    itself; what the children expose as [filters] is never read; and a leaf
    whose field has no separator leaves the query as it is. *)
Theorem implicit_join_two_levels (q : Query) (model : class_id)
    (nodes : list filter_node) :
  implicit_join mapper join q model nodes
  = plan_leaves mapper join q model nodes
  /\ implicit_join mapper join q model (map prune nodes)
     = implicit_join mapper join q model nodes
  /\ (forall (leaf : filter_node) (fs : gmap string string) (field : string),
        filter_spec leaf = Some fs ->
        fs !! "field" = Some field ->
        PyStr.contains PyStr.dot field = false ->
        filter_join mapper join model q leaf = Ok q).
Proof.
  split; [apply implicit_join_flat|]. split.
  - revert q. induction nodes as [|f1 rest IH]; intros q; [done|].
    simpl. rewrite !implicit_join_cons, leaf_candidates_prune.
    destruct (for_each _ (leaf_candidates f1) q); simpl; [apply IH | done].
  - intros leaf fs field Hspec Hfield Hdot.
    unfold filter_join. by rewrite Hspec, Hfield, Hdot.
Qed.

(** C6, as amended: a dotted leaf of two pieces whose first piece is an
    attribute of the model and whose join the engine rejects with
    [InvalidRequestError] leaves the query as it is and raises nothing, and
    the walk goes on with the node that follows it, whether the leaf stands
    at the top level or among the children of a combinator. *)
Theorem join_rejection_is_swallowed (q : Query) (model : class_id)
    (leaf : filter_node) (fs : gmap string string)
    (field relation column : string) (target : value) :
  filter_spec leaf = Some fs ->
  fs !! "field" = Some field ->
  PyStr.contains PyStr.dot field = true ->
  PyStr.split PyStr.dot field = [relation; column] ->
  getattr mapper model relation = Ok target ->
  join q target = Raise InvalidRequestError ->
  filter_join mapper join model q leaf = Ok q
  /\ (hasattr_filters leaf = false ->
      forall rest : list filter_node,
        implicit_join mapper join q model (leaf :: rest)
        = implicit_join mapper join q model rest)
  /\ (forall (s : option (gmap string string))
             (children rest : list filter_node),
        implicit_join mapper join q model
          (FilterNode s (Some (leaf :: children)) :: rest)
        = implicit_join mapper join q model
            (FilterNode s (Some children) :: rest)).
Proof.
  intros Hspec Hfield Hdot Hsplit Hattr Hjoin.
  assert (filter_join mapper join model q leaf = Ok q) as Hleaf.
  { unfold filter_join.
    rewrite Hspec, Hfield, Hdot, Hsplit, Hattr. simpl. by rewrite Hjoin. }
  split; [done|]. split.
  - intros Hleafnode rest. rewrite implicit_join_cons.
    unfold leaf_candidates. rewrite Hleafnode. simpl. by rewrite Hleaf.
  - intros s children rest. rewrite !implicit_join_cons.
    unfold leaf_candidates. simpl. by rewrite Hleaf.
Qed.

(** ** Named joins *)

Lemma not_in_query_models_class (c : class_id) (q : Query)
    (d : list (string * class_id)) :
  get_query_models mapper q = Ok d ->
  c ∈ PyDict.values d ->
  not_in_query_models mapper (VClass c) q = Ok false.
Proof.
  intros Hd Hc. unfold not_in_query_models. rewrite Hd. simpl.
  rewrite bool_decide_eq_true_2; [done|].
  by apply (list_elem_of_fmap_2 VClass).
Qed.

Lemma not_in_query_models_absent (c : class_id) (q : Query)
    (d : list (string * class_id)) :
  get_query_models mapper q = Ok d ->
  c ∉ PyDict.values d ->
  not_in_query_models mapper (VClass c) q = Ok true.
Proof.
  intros Hd Hc. unfold not_in_query_models. rewrite Hd. simpl.
  rewrite bool_decide_eq_false_2; [done|].
  intros (c' & [= <-] & Hc')%list_elem_of_fmap_1. done.
Qed.

Lemma not_in_query_models_None (q : Query) (d : list (string * class_id)) :
  get_query_models mapper q = Ok d ->
  not_in_query_models mapper VNone q = Ok true.
Proof.
  intros Hd. unfold not_in_query_models. rewrite Hd. simpl.
  rewrite bool_decide_eq_false_2; [done|].
  by intros (c & ? & _)%list_elem_of_fmap_1.
Qed.

Lemma lookup_absent (registry : list registry_entry) (name : string) :
  (forall c, RegClass c ∈ registry -> cls_name (mapper c) <> name) ->
  get_model_class_by_name mapper registry name = VNone.
Proof.
  induction registry as [|e registry IH]; intros Habs; simpl; [done|].
  destruct e as [c|]; simpl.
  - assert (cls_name (mapper c) <> name) as ->%String.eqb_neq
      by (apply Habs; left).
    apply IH. intros c' Hc'. apply Habs. by right.
  - apply IH. intros c' Hc'. apply Habs. by right.
Qed.

Lemma lookup_first (pre post : list registry_entry) (c : class_id)
    (name : string) :
  (forall c', RegClass c' ∈ pre -> cls_name (mapper c') <> name) ->
  cls_name (mapper c) = name ->
  get_model_class_by_name mapper (pre ++ RegClass c :: post) name = VClass c.
Proof.
  induction pre as [|e pre IH]; intros Habs Hname; simpl.
  - by apply String.eqb_eq in Hname as ->.
  - destruct e as [c0|]; simpl.
    + assert (cls_name (mapper c0) <> name) as ->%String.eqb_neq
        by (apply Habs; left).
      apply IH; [|done]. intros c' Hc'. apply Habs. by right.
    + apply IH; [|done]. intros c' Hc'. apply Habs. by right.
Qed.

(** Once the registry is fetched, [auto_join] is its loop. *)
Lemma auto_join_loop (q : Query) (d : list (string * class_id))
    (any_model : class_id) (model_names : list string) :
  get_query_models mapper q = Ok d ->
  last (PyDict.values d) = Some any_model ->
  auto_join mapper join q model_names
  = for_each (auto_join_step mapper join (cls_registry (mapper any_model)))
      model_names q.
Proof.
  intros Hd Hlast. unfold auto_join. rewrite Hd. cbn [bind].
  by rewrite Hlast.
Qed.

Lemma auto_join_step_present (registry : list registry_entry) (q : Query)
    (d : list (string * class_id)) (name : string) (c : class_id) :
  get_model_class_by_name mapper registry name = VClass c ->
  get_query_models mapper q = Ok d ->
  c ∈ PyDict.values d ->
  auto_join_step mapper join registry q name = Ok q.
Proof.
  intros Hc Hd Hin. unfold auto_join_step.
  by rewrite Hc, (not_in_query_models_class _ _ _ Hd Hin).
Qed.

(** C9: on a query with models, a requested name whose registry class is
    among the models of the query that the loop has reached is passed over,
    whatever the engine would answer to a join and whatever names are
    requested before and after it: the step of that name returns the query
    it was given, and the whole call is the call without that name.  So
    names that are all present in the query leave it as it is. *)
Theorem auto_join_present_names (q : Query)
    (models : list (string * class_id)) (any_model : class_id) :
  get_query_models mapper q = Ok models ->
  last (PyDict.values models) = Some any_model ->
  (forall (before after : list string) (name : string) (q1 : Query)
          (models1 : list (string * class_id)) (c : class_id),
     auto_join mapper join q before = Ok q1 ->
     get_model_class_by_name mapper (cls_registry (mapper any_model)) name
     = VClass c ->
     get_query_models mapper q1 = Ok models1 ->
     c ∈ PyDict.values models1 ->
     auto_join_step mapper join (cls_registry (mapper any_model)) q1 name
     = Ok q1
     /\ auto_join mapper join q (before ++ name :: after)
        = auto_join mapper join q (before ++ after))
  /\ (forall model_names : list string,
        (forall name : string,
           name ∈ model_names ->
           exists c : class_id,
             get_model_class_by_name mapper
               (cls_registry (mapper any_model)) name
             = VClass c
             /\ c ∈ PyDict.values models) ->
        auto_join mapper join q model_names = Ok q).
Proof.
  intros Hmodels Hlast. split.
  - intros before after name q1 models1 c Hbefore Hc Hmodels1 Hin.
    pose proof (auto_join_step_present _ _ _ _ _ Hc Hmodels1 Hin) as Hstep.
    split; [done|].
    rewrite !(auto_join_loop _ _ _ _ Hmodels Hlast) in *.
    rewrite !for_each_app, Hbefore. simpl. by rewrite Hstep.
  - intros model_names Hnames.
    rewrite (auto_join_loop _ _ _ _ Hmodels Hlast).
    induction model_names as [|name rest IH]; simpl; [done|].
    destruct (Hnames name) as (c & Hc & Hin); [left|].
    rewrite (auto_join_step_present _ _ _ _ _ Hc Hmodels Hin). simpl.
    apply IH. intros n Hn. apply Hnames. by right.
Qed.

(** C10: the registry lookup returns the first class of the registry that
    bears the name and [None] when no class bears it; and for a name that no
    class of the registry bears, [auto_join] takes the branch of the models
    that are not in the query and asks the engine to join [None]. *)
Theorem auto_join_absent_name :
  (forall (pre post : list registry_entry) (c : class_id) (name : string),
     (forall c', RegClass c' ∈ pre -> cls_name (mapper c') <> name) ->
     cls_name (mapper c) = name ->
     get_model_class_by_name mapper (pre ++ RegClass c :: post) name
     = VClass c)
  /\ (forall (registry : list registry_entry) (name : string),
        (forall c, RegClass c ∈ registry -> cls_name (mapper c) <> name) ->
        get_model_class_by_name mapper registry name = VNone)
  /\ (forall (q : Query) (models : list (string * class_id))
             (any_model : class_id) (name : string) (rest : list string),
        get_query_models mapper q = Ok models ->
        last (PyDict.values models) = Some any_model ->
        (forall c, RegClass c ∈ cls_registry (mapper any_model) ->
                   cls_name (mapper c) <> name) ->
        not_in_query_models mapper VNone q = Ok true
        /\ auto_join mapper join q (name :: rest)
           = let* q' := try_except_InvalidRequestError (join q VNone) q in
             for_each
               (auto_join_step mapper join (cls_registry (mapper any_model)))
               rest q').
Proof.
  split; [apply lookup_first|]. split; [apply lookup_absent|].
  intros q models any_model name rest Hmodels Hlast Habs.
  split; [by apply (not_in_query_models_None _ models)|].
  rewrite (auto_join_loop _ _ _ _ Hmodels Hlast). simpl.
  unfold auto_join_step at 1.
  by rewrite lookup_absent, (not_in_query_models_None _ _ Hmodels).
Qed.

End JoinFacts.

(** The walk on the filters [name] and [orders.total] over [Customer] joins
    [Order]. *)
Example implicit_join_customer_orders :
  implicit_join Shop.mapper Shop.join (mkQuery [Some Shop.Customer] [])
    Shop.Customer [Shop.leaf "name"; Shop.leaf "orders.total"]
  = Ok (mkQuery [Some Shop.Customer] [Shop.Order]).
Proof. vm_compute. reflexivity. Qed.

(** A combinator among the children of a combinator is handed to the leaf
    rule as it is; without a [filter_spec] the rule cannot read it. *)
Example implicit_join_nested_group :
  implicit_join Shop.mapper Shop.join (mkQuery [Some Shop.Customer] [])
    Shop.Customer [Shop.group [Shop.group [Shop.leaf "orders.total"]]]
  = Raise (AttributeError "filter_spec").
Proof. vm_compute. reflexivity. Qed.

Lemma implicit_join_two_levels_witness :
  filter_join Shop.mapper Shop.join Shop.Customer
    (mkQuery [Some Shop.Customer] []) (Shop.leaf "name")
  = Ok (mkQuery [Some Shop.Customer] []).
Proof.
  destruct (implicit_join_two_levels Shop.mapper Shop.join
              (mkQuery [Some Shop.Customer] []) Shop.Customer
              [Shop.leaf "name"]) as (_ & _ & Hleaf).
  apply (Hleaf (Shop.leaf "name") (<["field" := "name"]> ∅) "name");
    vm_compute; reflexivity.
Defined.

(** The claim of C6 as it stands fails on a dotted leaf whose join is not
    rejected with [InvalidRequestError]: the first piece of [name.x] is a
    column, which the engine refuses as a join target with
    [ArgumentError], and the first piece of [nope.total] is no attribute of
    the model at all.  In both cases an exception reaches the caller, where
    the claim has the walk go on with the leaf [orders.total] and join
    [Order]. *)
Lemma join_rejection_counterexample :
  implicit_join Shop.mapper Shop.join (mkQuery [Some Shop.Customer] [])
    Shop.Customer [Shop.leaf "name.x"; Shop.leaf "orders.total"]
  = Raise ArgumentError
  /\ implicit_join Shop.mapper Shop.join (mkQuery [Some Shop.Customer] [])
       Shop.Customer [Shop.leaf "nope.total"; Shop.leaf "orders.total"]
     = Raise (AttributeError "nope")
  /\ implicit_join Shop.mapper Shop.join (mkQuery [Some Shop.Customer] [])
       Shop.Customer [Shop.leaf "orders.total"]
     = Ok (mkQuery [Some Shop.Customer] [Shop.Order]).
Proof. repeat split; vm_compute; reflexivity. Qed.

Lemma join_rejection_is_swallowed_witness :
  filter_join Shop.mapper Shop.join Shop.Customer
    (mkQuery [Some Shop.Customer] [Shop.Order]) (Shop.leaf "orders.total")
  = Ok (mkQuery [Some Shop.Customer] [Shop.Order])
  /\ implicit_join Shop.mapper Shop.join
       (mkQuery [Some Shop.Customer] [Shop.Order]) Shop.Customer
       [Shop.leaf "orders.total"; Shop.leaf "name"]
     = implicit_join Shop.mapper Shop.join
         (mkQuery [Some Shop.Customer] [Shop.Order]) Shop.Customer
         [Shop.leaf "name"].
Proof.
  destruct (join_rejection_is_swallowed Shop.mapper Shop.join
              (mkQuery [Some Shop.Customer] [Shop.Order]) Shop.Customer
              (Shop.leaf "orders.total") (<["field" := "orders.total"]> ∅)
              "orders.total" "orders" "total"
              (VRelationshipAttr Shop.Customer "orders" Shop.Order))
    as (Hleaf & Htop & _); try (vm_compute; reflexivity).
  split; [exact Hleaf|]. apply Htop. reflexivity.
Defined.

Lemma auto_join_present_names_witness :
  auto_join Shop.mapper Shop.join (mkQuery [Some Shop.Customer] [])
    (["Invoice"] ++ "Customer" :: ["Order"])
  = auto_join Shop.mapper Shop.join (mkQuery [Some Shop.Customer] [])
      (["Invoice"] ++ ["Order"])
  /\ auto_join Shop.mapper Shop.join
       (mkQuery [Some Shop.Customer] [Shop.Order]) ["Order"; "Customer"]
     = Ok (mkQuery [Some Shop.Customer] [Shop.Order]).
Proof.
  split.
  - destruct (auto_join_present_names Shop.mapper Shop.join
                (mkQuery [Some Shop.Customer] [])
                [("Customer", Shop.Customer)] Shop.Customer
                eq_refl eq_refl) as [Hname _].
    apply (Hname ["Invoice"] ["Order"] "Customer"
             (mkQuery [Some Shop.Customer] [Shop.Invoice])
             [("Customer", Shop.Customer); ("Invoice", Shop.Invoice)]
             Shop.Customer);
      [vm_compute; reflexivity | vm_compute; reflexivity
      | vm_compute; reflexivity |].
    apply (bool_decide_unpack _). vm_compute. exact I.
  - destruct (auto_join_present_names Shop.mapper Shop.join
                (mkQuery [Some Shop.Customer] [Shop.Order])
                [("Customer", Shop.Customer); ("Order", Shop.Order)]
                Shop.Order eq_refl eq_refl) as [_ Hall].
    apply Hall. intros name Hname.
    apply elem_of_cons in Hname as [->|Hname].
    + exists Shop.Order. split; [vm_compute; reflexivity|].
      apply (bool_decide_unpack _). vm_compute. exact I.
    + apply list_elem_of_singleton in Hname as ->.
      exists Shop.Customer. split; [vm_compute; reflexivity|].
      apply (bool_decide_unpack _). vm_compute. exact I.
Defined.

Lemma auto_join_absent_name_witness :
  auto_join Shop.mapper Shop.join (mkQuery [Some Shop.Customer] [])
    ["Ghost"; "Order"]
  = Ok (mkQuery [Some Shop.Customer] [Shop.Order]).
Proof.
  destruct (auto_join_absent_name Shop.mapper Shop.join) as (_ & _ & Habsent).
  destruct (Habsent (mkQuery [Some Shop.Customer] [])
              [("Customer", Shop.Customer)] Shop.Customer "Ghost" ["Order"])
    as (_ & ->);
    [vm_compute; reflexivity | vm_compute; reflexivity
    | | vm_compute; reflexivity].
  intros c Hc. change (cls_registry (Shop.mapper Shop.Customer))
    with Shop.registry in Hc. unfold Shop.registry in Hc.
  repeat (apply elem_of_cons in Hc as [Hc|Hc]; [by simplify_eq|]).
  by apply elem_of_nil in Hc.
Defined.

(** ** Field resolution: the remaining outcomes *)

Section SplitLength.

Variable sep : ascii.

Lemma split_length_pos (s : string) : 1 <= length (PyStr.split sep s).
Proof.
  pose proof (split_nonempty sep s).
  destruct (PyStr.split sep s); simpl; [done | lia].
Qed.

Lemma split_length_append (a b : string) :
  length (PyStr.split sep (a +:+ b)) + 1
  = length (PyStr.split sep a) + length (PyStr.split sep b).
Proof.
  induction a as [|x a IH]; simpl.
  { change ("" +:+ b) with b. lia. }
  destruct (Ascii.eqb x sep); simpl; [lia|].
  pose proof (split_nonempty sep (a +:+ b)).
  pose proof (split_nonempty sep a).
  destruct (PyStr.split sep (a +:+ b)), (PyStr.split sep a);
    simpl in *; try done; lia.
Qed.

Lemma split_length_with_sep (s : string) :
  PyStr.contains sep s = true -> 2 <= length (PyStr.split sep s).
Proof.
  induction s as [|x s IH]; simpl; [done|].
  destruct (Ascii.eqb x sep); simpl.
  - intros _. pose proof (split_length_pos s). lia.
  - intros H. specialize (IH H).
    destruct (PyStr.split sep s); simpl in *; lia.
Qed.

Lemma split_length_two_seps (a b : string) :
  PyStr.contains sep b = true ->
  3 <= length (PyStr.split sep (a +:+ String sep b)).
Proof.
  intros Hb. pose proof (split_length_append a (String sep b)) as Happ.
  pose proof (split_length_pos a).
  pose proof (split_length_with_sep b Hb).
  simpl in Happ. rewrite Ascii.eqb_refl in Happ. simpl in Happ. lia.
Qed.

Lemma split_two_pieces_contains (s r c : string) :
  PyStr.split sep s = [r; c] -> PyStr.contains sep s = true.
Proof.
  intros Hsplit. destruct (PyStr.contains sep s) eqn:E; [done|].
  rewrite split_without_sep in Hsplit by done. done.
Qed.

End SplitLength.

Section FieldOutcomes.

Variable mapper : class_id -> class_desc.

(** X1: a field name with a separator followed by a rest that holds another
    separator makes the resolver raise [ValueError], on every model and
    whatever the segments name. *)
Theorem resolve_two_separators (M : class_id) (a b : string) :
  PyStr.contains PyStr.dot b = true ->
  get_sqlalchemy_field mapper (mkField M (a +:+ "." +:+ b)) = Raise ValueError.
Proof.
  intros Hb. unfold get_sqlalchemy_field. cbn [field_name model].
  change ("." +:+ b) with (String PyStr.dot b).
  rewrite contains_relation_field.
  pose proof (split_length_two_seps PyStr.dot a b Hb) as Hlen.
  destruct (PyStr.split PyStr.dot (a +:+ String PyStr.dot b))
    as [|p1 [|p2 [|p3 ps]]]; simpl in Hlen; try lia; done.
Qed.

Lemma getattr_relationship (c t : class_id) (name : string) :
  relationships mapper c !! name = Some t ->
  getattr mapper c name = Ok (VRelationshipAttr c name t).
Proof.
  intros H%relationships_lookup. unfold getattr. by rewrite H.
Qed.

Lemma getattr_outcome (c : class_id) (name : string) :
  (exists v, getattr mapper c name = Ok v)
  \/ getattr mapper c name = Raise (AttributeError name).
Proof.
  unfold getattr. destruct (cls_attrs (mapper c) !! name) as [[| |]|]; eauto.
Qed.

(** The resolver on a dotted name of two pieces whose first piece is a
    relationship: the attribute lookup on the related class decides. *)
Lemma resolve_through_relationship (f : Field) (r c : string) (t : class_id) :
  PyStr.split PyStr.dot (field_name f) = [r; c] ->
  relationships mapper (model f) !! r = Some t ->
  get_sqlalchemy_field mapper f = getattr mapper t c.
Proof.
  intros Hsplit Hrel. unfold get_sqlalchemy_field.
  rewrite (split_two_pieces_contains _ _ _ _ Hsplit), Hsplit.
  assert (in_keys r (relationships mapper (model f)) = true) as ->
    by (apply in_keys_true; eauto).
  by rewrite (getattr_relationship _ _ _ Hrel).
Qed.

(** X2: the resolver raises [FieldNotFound] in exactly two situations, an
    undotted name that is no column key of the model and a name of two
    pieces whose first piece is no relationship key of the model; the error
    carries the model and the whole requested name. *)
Theorem field_not_found_iff (f : Field) (m : class_id) (n : string) :
  get_sqlalchemy_field mapper f = Raise (FieldNotFound m n)
  <-> m = model f /\ n = field_name f
      /\ ((PyStr.contains PyStr.dot n = false /\ n ∉ dom (columns mapper m))
          \/ (exists r c : string,
                PyStr.split PyStr.dot n = [r; c]
                /\ relationships mapper m !! r = None)).
Proof.
  destruct f as [M F]. cbn [model field_name]. split.
  - unfold get_sqlalchemy_field. cbn [model field_name].
    destruct (PyStr.contains PyStr.dot F) eqn:Hdot.
    + destruct (PyStr.split PyStr.dot F) as [|r [|c [|p ps]]] eqn:Hsplit;
        try done.
      destruct (in_keys r (relationships mapper M)) eqn:Hin.
      * apply in_keys_true in Hin as [t Ht].
        rewrite (getattr_relationship _ _ _ Ht). simpl.
        destruct (getattr_outcome t c) as [[v ->]| ->]; done.
      * intros [= <- <-]. apply in_keys_false in Hin.
        repeat split; try done. right. by exists r, c.
    + destruct (in_keys F (columns mapper M)) eqn:Hin.
      * destruct (getattr_outcome M F) as [[v ->]| ->]; done.
      * intros [= <- <-]. apply in_keys_false in Hin.
        repeat split; try done. left. split; [done|].
        by apply not_elem_of_dom.
  - intros (-> & -> & [[Hdot Hcol]|(r & c & Hsplit & Hrel)]);
      unfold get_sqlalchemy_field; cbn [model field_name].
    + rewrite Hdot.
      by assert (in_keys F (columns mapper M) = false) as ->
        by (by apply in_keys_false, not_elem_of_dom).
    + rewrite (split_two_pieces_contains _ _ _ _ Hsplit), Hsplit.
      by assert (in_keys r (relationships mapper M) = false) as ->
        by (by apply in_keys_false).
Qed.

(** X3: what a successful resolution returns.  For an undotted name it is
    the column attribute of the model under that name; for a dotted name the
    name has two pieces, the first is a relationship key of the model and
    the result is the attribute that the related class binds to the second
    piece. *)
Theorem resolve_success_inversion (f : Field) (v : value) :
  get_sqlalchemy_field mapper f = Ok v ->
  (PyStr.contains PyStr.dot (field_name f) = false
   /\ field_name f ∈ dom (columns mapper (model f))
   /\ v = VColumnAttr (model f) (field_name f))
  \/ (exists (r c : string) (t : class_id),
        PyStr.split PyStr.dot (field_name f) = [r; c]
        /\ relationships mapper (model f) !! r = Some t
        /\ getattr mapper t c = Ok v).
Proof.
  destruct f as [M F]. unfold get_sqlalchemy_field. cbn [model field_name].
  destruct (PyStr.contains PyStr.dot F) eqn:Hdot.
  - destruct (PyStr.split PyStr.dot F) as [|r [|c [|p ps]]] eqn:Hsplit;
      try done.
    destruct (in_keys r (relationships mapper M)) eqn:Hin; [|done].
    apply in_keys_true in Hin as [t Ht].
    rewrite (getattr_relationship _ _ _ Ht). simpl.
    intros Hv. right. by exists r, c, t.
  - destruct (in_keys F (columns mapper M)) eqn:Hin; [|done].
    apply in_keys_true in Hin. pose proof Hin as Hcol%elem_of_dom.
    rewrite (getattr_column _ _ _ Hcol). intros [= <-]. by left.
Qed.

(** X4: the resolver raises nothing but [FieldNotFound] for the model and
    the requested name, [ValueError], and [AttributeError] for the last
    piece of a dotted name. *)
Theorem resolve_raises_only (f : Field) (e : exn) :
  get_sqlalchemy_field mapper f = Raise e ->
  e = FieldNotFound (model f) (field_name f)
  \/ e = ValueError
  \/ (exists r c : string,
        PyStr.split PyStr.dot (field_name f) = [r; c]
        /\ e = AttributeError c).
Proof.
  destruct f as [M F]. unfold get_sqlalchemy_field. cbn [model field_name].
  destruct (PyStr.contains PyStr.dot F) eqn:Hdot.
  - destruct (PyStr.split PyStr.dot F) as [|r [|c [|p ps]]] eqn:Hsplit;
      try (intros [= <-]; by auto).
    destruct (in_keys r (relationships mapper M)) eqn:Hin;
      [|intros [= <-]; by auto].
    apply in_keys_true in Hin as [t Ht].
    rewrite (getattr_relationship _ _ _ Ht). simpl.
    destruct (getattr_outcome t c) as [[v ->]| ->]; [done|].
    intros [= <-]. right. right. by exists r, c.
  - destruct (in_keys F (columns mapper M)) eqn:Hin;
      [|intros [= <-]; by auto].
    apply in_keys_true in Hin. pose proof Hin as Hcol%elem_of_dom.
    by rewrite (getattr_column _ _ _ Hcol).
Qed.

End FieldOutcomes.

Lemma resolve_two_separators_witness :
  get_sqlalchemy_field Shop.mapper (mkField Shop.Customer "orders.total.x")
  = Raise ValueError.
Proof.
  apply (resolve_two_separators Shop.mapper Shop.Customer "orders" "total.x").
  reflexivity.
Defined.

Lemma field_not_found_iff_witness :
  get_sqlalchemy_field Shop.mapper (mkField Shop.Customer "orders")
  = Raise (FieldNotFound Shop.Customer "orders")
  /\ get_sqlalchemy_field Shop.mapper (mkField Shop.Order "orders.total")
     = Raise (FieldNotFound Shop.Order "orders.total").
Proof.
  split.
  - apply (field_not_found_iff Shop.mapper). repeat split. left.
    split; [reflexivity|]. apply not_elem_of_dom. vm_compute. reflexivity.
  - apply (field_not_found_iff Shop.mapper). repeat split. right.
    exists "orders", "total". split; vm_compute; reflexivity.
Defined.

Lemma resolve_success_inversion_witness :
  (PyStr.contains PyStr.dot "orders.customer" = false
   /\ "orders.customer" ∈ dom (columns Shop.mapper Shop.Customer)
   /\ VRelationshipAttr Shop.Order "customer" Shop.Customer
      = VColumnAttr Shop.Customer "orders.customer")
  \/ (exists (r c : string) (t : class_id),
        PyStr.split PyStr.dot "orders.customer" = [r; c]
        /\ relationships Shop.mapper Shop.Customer !! r = Some t
        /\ getattr Shop.mapper t c
           = Ok (VRelationshipAttr Shop.Order "customer" Shop.Customer)).
Proof.
  apply (resolve_success_inversion Shop.mapper
           (mkField Shop.Customer "orders.customer")).
  vm_compute. reflexivity.
Defined.

Lemma resolve_raises_only_witness :
  AttributeError "missing"
  = FieldNotFound Shop.Customer "orders.missing"
  \/ AttributeError "missing" = ValueError
  \/ (exists r c : string,
        PyStr.split PyStr.dot "orders.missing" = [r; c]
        /\ AttributeError "missing" = AttributeError c).
Proof.
  apply (resolve_raises_only Shop.mapper
           (mkField Shop.Customer "orders.missing")).
  vm_compute. reflexivity.
Defined.

(** ** Model disambiguation: the default model, origins and errors *)

Lemma NoDup_all_eq {A} (l : list A) (k : A) :
  NoDup l -> (forall x, x ∈ l -> x = k) -> length l <= 1.
Proof.
  intros Hnd Hall. destruct l as [|a [|b l]]; simpl; [lia | lia |].
  apply NoDup_cons in Hnd as [Ha _]. exfalso. apply Ha.
  rewrite (Hall a) by left. rewrite <- (Hall b) by (right; left). left.
Qed.

Section DefaultModel.

Variable mapper : class_id -> class_desc.

(** A dictionary with the lookups, the entries and the distinct keys of the
    comprehension over [cs] has a single value exactly when the classes of
    [cs] bear one name; the value is then the last class. *)
Lemma single_value_iff (cs : list class_id) (d : list (string * class_id))
    (m : class_id) :
  (forall n : string,
     PyDict.get n d
     = find (fun c => String.eqb (cls_name (mapper c)) n) (rev cs)) ->
  (forall (n : string) (c : class_id),
     (n, c) ∈ d -> c ∈ cs /\ n = cls_name (mapper c)) ->
  NoDup (PyDict.keys d) ->
  PyDict.values d = [m]
  <-> last cs = Some m
      /\ (forall m' : class_id,
            m' ∈ cs -> cls_name (mapper m') = cls_name (mapper m)).
Proof.
  intros Hget Hentry Hnodup.
  destruct cs as [|x models _] using rev_ind.
  { split.
    - intros Hv. destruct d as [|[k v] d]; [done|].
      destruct (Hentry k v) as [Hin _]; [left|]. by apply elem_of_nil in Hin.
    - by intros [? _]. }
  rewrite last_snoc. setoid_rewrite rev_unit in Hget. simpl in Hget.
  split.
  - intros Hv. destruct d as [|[k v] [|kv d]]; try done.
    simpl in Hv. injection Hv as ->.
    destruct (Hentry k m) as [_ ->]; [left|].
    assert (forall m', m' ∈ models ++ [x] ->
                       cls_name (mapper m') = cls_name (mapper m)) as Hall.
    { intros m' Hm'. specialize (Hget (cls_name (mapper m'))). simpl in Hget.
      destruct (String.eqb (cls_name (mapper m)) (cls_name (mapper m')))
        eqn:E; [symmetry; by apply String.eqb_eq|].
      destruct (String.eqb (cls_name (mapper x)) (cls_name (mapper m')))
        eqn:Ex; [done|].
      apply elem_of_app in Hm' as [Hm'|Hm'%list_elem_of_singleton].
      - symmetry in Hget. apply list_elem_of_In, in_rev in Hm'.
        pose proof (find_none _ _ Hget _ Hm') as Hf. simpl in Hf.
        by rewrite String.eqb_refl in Hf.
      - subst m'. by rewrite String.eqb_refl in Ex. }
    split; [|done]. f_equal.
    specialize (Hget (cls_name (mapper x))). simpl in Hget.
    rewrite String.eqb_refl in Hget.
    rewrite (Hall x) in Hget by (apply elem_of_app; right; left).
    rewrite String.eqb_refl in Hget. congruence.
  - intros [[= ->] Hall].
    assert (length d <= 1) as Hlen.
    { rewrite <- (length_fmap fst).
      apply (NoDup_all_eq _ (cls_name (mapper m))); [done|].
      intros k ([k' v] & -> & Hin)%list_elem_of_fmap_1. simpl.
      apply Hentry in Hin as [Hv ->]. by apply Hall. }
    destruct d as [|[k v] [|kv d]]; [|simpl|simpl in Hlen; lia].
    + specialize (Hget (cls_name (mapper m))). simpl in Hget.
      by rewrite String.eqb_refl in Hget.
    + f_equal. destruct (Hentry k v) as [_ ->]; [left|].
      specialize (Hget (cls_name (mapper m))). simpl in Hget.
      rewrite String.eqb_refl in Hget.
      destruct (String.eqb (cls_name (mapper v)) (cls_name (mapper m)));
        congruence.
Qed.

Lemma comprehension_single (cs : list class_id) (m : class_id) :
  PyDict.values
    (PyDict.comprehension (fun c => cls_name (mapper c)) (fun c => c) cs)
  = [m]
  <-> last cs = Some m
      /\ (forall m' : class_id,
            m' ∈ cs -> cls_name (mapper m') = cls_name (mapper m)).
Proof.
  apply single_value_iff.
  - intros n. rewrite comprehension_get. apply option_fmap_id.
  - by intros n c (x & Hx & [= -> ->])%comprehension_elem_of.
  - apply comprehension_keys_NoDup.
Qed.

Lemma default_model_values (q : Query) (m : class_id) :
  get_default_model mapper q = Ok (Some m)
  <-> exists d : list (string * class_id),
        get_query_models mapper q = Ok d /\ PyDict.values d = [m].
Proof.
  unfold get_default_model.
  destruct (get_query_models mapper q) as [d|e]; simpl.
  - destruct (PyDict.values d) as [|x [|y l]] eqn:E; split.
    + done.
    + by intros (d' & [= <-] & Hv); rewrite E in Hv.
    + intros [= ->]. by exists d.
    + intros (d' & [= <-] & Hv). rewrite E in Hv. by injection Hv as ->.
    + done.
    + by intros (d' & [= <-] & Hv); rewrite E in Hv.
  - split; [done | by intros (d' & ? & _)].
Qed.

(** X5: [get_default_model] returns a model exactly when every entity
    collected from the query is a class, all of them bear one name, and the
    model is the one collected last. *)
Theorem default_model_iff (q : Query) (m : class_id) :
  get_default_model mapper q = Ok (Some m)
  <-> last (query_entities q) = Some (Some m)
      /\ (forall e : option class_id,
            e ∈ query_entities q ->
            exists m' : class_id,
              e = Some m' /\ cls_name (mapper m') = cls_name (mapper m)).
Proof.
  rewrite default_model_values. split.
  - intros (d & (cs & Hcs & ->)%query_models_Ok & Hv).
    apply comprehension_single in Hv as [Hlast Hall].
    rewrite Hcs. split.
    + change (map Some cs) with (Some <$> cs). by rewrite fmap_last, Hlast.
    + intros e (m' & -> & Hm')%list_elem_of_fmap_1. exists m'.
      split; [done | by apply Hall].
  - intros [Hlast Hall].
    destruct (entities_classes_or_none (query_entities q))
      as [[cs Hcs]|Hnone].
    + exists (PyDict.comprehension
                (fun c => cls_name (mapper c)) (fun c => c) cs).
      split; [by apply query_models_classes|].
      apply comprehension_single. rewrite Hcs in Hlast, Hall. split.
      * change (map Some cs) with (Some <$> cs) in Hlast.
        rewrite fmap_last in Hlast.
        destruct (last cs) as [x|]; simpl in Hlast; congruence.
      * intros m' Hm'.
        destruct (Hall (Some m')) as (m'' & [= <-] & Hname); [|done].
        by apply (list_elem_of_fmap_2 Some).
    + by destruct (Hall None Hnone) as (m' & ? & _).
Qed.

End DefaultModel.

Section Disambiguation.

Variable mapper : class_id -> class_desc.

(** X6: handing [get_default_model(query)] to [get_model_from_spec] as the
    default changes nothing: the result is the one obtained without a
    default, on every spec and every query. *)
Theorem default_from_query_is_redundant (spec : gmap string string)
    (q : Query) :
  (let* default_model := get_default_model mapper q in
   get_model_from_spec mapper spec q default_model)
  = get_model_from_spec mapper spec q None.
Proof.
  unfold get_default_model, get_model_from_spec.
  destruct (get_query_models mapper q) as [d|e]; simpl; [|done].
  destruct d as [|kv [|kv' d]]; simpl; [done | |].
  - by destruct (spec !! "model").
  - by destruct (spec !! "model").
Qed.

(** X7: a model returned by [get_model_from_spec] is either one of the
    models collected from the query, bearing the name the spec asks for when
    it asks for one, or the default handed in, and the latter only for a
    spec without model on a query with more than one model. *)
Theorem resolved_model_origin (spec : gmap string string) (q : Query)
    (default_model : option class_id) (m : class_id) :
  get_model_from_spec mapper spec q default_model = Ok m ->
  (Some m ∈ query_entities q
   /\ forall n : string,
        spec !! "model" = Some n -> cls_name (mapper m) = n)
  \/ (spec !! "model" = None /\ default_model = Some m
      /\ exists models : list (string * class_id),
           get_query_models mapper q = Ok models /\ 1 < length models).
Proof.
  unfold get_model_from_spec.
  destruct (get_query_models mapper q) as [d|e] eqn:Hd; simpl; [|done].
  case_bool_decide as Hempty; [done|].
  destruct (spec !! "model") as [n|].
  - pose proof (items_named_head n d) as Hhead.
    destruct (map snd (filter _ d)) as [|m0 ms]; [done|].
    intros [= ->]. simpl in Hhead. symmetry in Hhead.
    apply get_Some_elem_of in Hhead.
    destruct (query_models_entry mapper _ _ _ _ Hd Hhead) as [Hin ->].
    left. split; [done|]. by intros ? [= <-].
  - case_bool_decide as Hlen.
    + destruct (PyDict.values d) as [|m0 ms] eqn:E; [done|].
      intros [= ->]. left. split; [|done].
      apply (query_models_value mapper _ _ _ Hd). rewrite E. left.
    + destruct default_model as [dm|]; [|done].
      intros [= ->]. right. repeat split; try done.
      exists d. split; [done|].
      destruct d as [|kv [|kv' l]]; simpl in *; try done; lia.
Qed.

(** X8: every error of [get_model_from_spec] names its cause.
    [AttributeError] means that a column description of the query has no
    entity; [BadQuery] means that the query has neither selected nor joined
    entities; the [BadSpec] about a missing model means that no model
    collected from the query bears the name the spec asks for; the
    [BadSpec] about ambiguity means a spec without model, no default and
    more than one model; there is no other error. *)
Theorem model_from_spec_errors (spec : gmap string string) (q : Query)
    (default_model : option class_id) (e : exn) :
  get_model_from_spec mapper spec q default_model = Raise e ->
  (e = AttributeError "__name__" /\ None ∈ column_descriptions q)
  \/ (e = BadQuery "The query does not contain any models."
      /\ column_descriptions q = [] /\ join_entities q = [])
  \/ (exists n : string,
        spec !! "model" = Some n
        /\ e = BadSpec ("The query does not contain model `" +:+ n +:+ "`.")
        /\ forall m : class_id,
             Some m ∈ query_entities q -> cls_name (mapper m) <> n)
  \/ (spec !! "model" = None /\ default_model = None
      /\ e = BadSpec "Ambiguous spec. Please specify a model."
      /\ exists models : list (string * class_id),
           get_query_models mapper q = Ok models /\ 1 < length models).
Proof.
  unfold get_model_from_spec.
  destruct (get_query_models mapper q) as [d|e0] eqn:Hd; simpl.
  2:{ intros [= <-]. left. apply query_models_Raise in Hd as [-> Hnone].
      split; [done|]. by apply none_entity_is_column. }
  case_bool_decide as Hempty.
  { intros [= <-]. right. left. split; [done|]. subst d.
    by apply query_models_empty in Hd. }
  destruct (spec !! "model") as [n|].
  - pose proof (items_named_head n d) as Hhead.
    destruct (map snd (filter _ d)) as [|m0 ms]; [|done].
    intros [= <-]. right. right. left. exists n. repeat split; try done.
    simpl in Hhead. symmetry in Hhead.
    pose proof Hd as (cs & Hcs & _)%query_models_Ok.
    rewrite (query_models_get mapper _ _ _ n Hcs Hd) in Hhead.
    rewrite Hcs. intros m (m' & [= <-] & Hm)%list_elem_of_fmap_1.
    apply elem_of_rev, list_elem_of_In in Hm.
    pose proof (find_none _ _ Hhead _ Hm) as Hf. simpl in Hf.
    by apply String.eqb_neq.
  - case_bool_decide as Hlen.
    + by destruct d as [|kv [|kv' l]].
    + destruct default_model as [dm|]; [done|].
      intros [= <-]. right. right. right. repeat split; try done.
      exists d. split; [done|].
      destruct d as [|kv [|kv' l]]; simpl in *; try done; lia.
Qed.

End Disambiguation.

Lemma default_model_iff_witness :
  get_default_model Shop.mapper (mkQuery [Some Shop.Order] [Shop.OrderTwin])
  = Ok (Some Shop.OrderTwin).
Proof.
  apply (default_model_iff Shop.mapper). split; [reflexivity|].
  intros e He. unfold query_entities in He. simpl in He.
  apply elem_of_cons in He as [->|He].
  - by exists Shop.Order.
  - apply list_elem_of_singleton in He as ->. by exists Shop.OrderTwin.
Defined.

Lemma resolved_model_origin_witness :
  (Some Shop.Order
   ∈ query_entities (mkQuery [Some Shop.Customer] [Shop.Order])
   /\ forall n : string,
        (<["model" := "Order"]> ∅ : gmap string string) !! "model" = Some n ->
        cls_name (Shop.mapper Shop.Order) = n)
  \/ ((<["model" := "Order"]> ∅ : gmap string string) !! "model" = None
      /\ Some Shop.Invoice = Some Shop.Order
      /\ exists models : list (string * class_id),
           get_query_models Shop.mapper
             (mkQuery [Some Shop.Customer] [Shop.Order])
           = Ok models
           /\ 1 < length models).
Proof.
  apply (resolved_model_origin Shop.mapper (<["model" := "Order"]> ∅)
           (mkQuery [Some Shop.Customer] [Shop.Order]) (Some Shop.Invoice)).
  vm_compute. reflexivity.
Defined.

Lemma model_from_spec_errors_witness :
  (AttributeError "__name__" = AttributeError "__name__"
   /\ None ∈ [Some Shop.Customer; None])
  \/ (AttributeError "__name__"
      = BadQuery "The query does not contain any models."
      /\ [Some Shop.Customer; None] = [] /\ [Shop.Order] = [])
  \/ (exists n : string,
        (∅ : gmap string string) !! "model" = Some n
        /\ AttributeError "__name__"
           = BadSpec ("The query does not contain model `" +:+ n +:+ "`.")
        /\ forall m : class_id,
             Some m
             ∈ query_entities
                 (mkQuery [Some Shop.Customer; None] [Shop.Order])
             -> cls_name (Shop.mapper m) <> n)
  \/ ((∅ : gmap string string) !! "model" = None
      /\ (None : option class_id) = None
      /\ AttributeError "__name__"
         = BadSpec "Ambiguous spec. Please specify a model."
      /\ exists models : list (string * class_id),
           get_query_models Shop.mapper
             (mkQuery [Some Shop.Customer; None] [Shop.Order])
           = Ok models
           /\ 1 < length models).
Proof.
  apply (model_from_spec_errors Shop.mapper ∅
           (mkQuery [Some Shop.Customer; None] [Shop.Order]) None).
  vm_compute. reflexivity.
Defined.

(** ** Join planning: composition, accepted joins and errors *)

Section JoinOutcomes.

Variable mapper : class_id -> class_desc.
Variable join : Query -> value -> result Query.

(** X9: planning the joins of a list of nodes is planning those of a first
    part and then, from the query so obtained, those of the rest; an error
    in the first part is the error of the whole. *)
Theorem implicit_join_app (q : Query) (model : class_id)
    (xs ys : list filter_node) :
  implicit_join mapper join q model (xs ++ ys)
  = let* q' := implicit_join mapper join q model xs in
    implicit_join mapper join q' model ys.
Proof.
  rewrite !implicit_join_flat, map_app, concat_app, for_each_app.
  destruct (for_each _ (concat (map leaf_candidates xs)) q); simpl; [|done].
  by rewrite implicit_join_flat.
Qed.

Lemma leaf_candidates_of_leaves (leaves : list filter_node) :
  Forall (fun f => hasattr_filters f = false) leaves ->
  concat (map leaf_candidates leaves) = leaves.
Proof.
  induction 1 as [|f leaves Hf _ IH]; simpl; [done|].
  unfold leaf_candidates at 1. rewrite Hf. simpl. by rewrite IH.
Qed.

(** X10: a combinator whose children expose no [filters] plans the same
    joins as its children listed in its place. *)
Theorem implicit_join_group_of_leaves (q : Query) (model : class_id)
    (s : option (gmap string string)) (leaves rest : list filter_node) :
  Forall (fun f => hasattr_filters f = false) leaves ->
  implicit_join mapper join q model (FilterNode s (Some leaves) :: rest)
  = implicit_join mapper join q model (leaves ++ rest).
Proof.
  intros Hleaves. rewrite !implicit_join_flat, map_app, concat_app.
  rewrite (leaf_candidates_of_leaves leaves) by done. reflexivity.
Qed.

Lemma implicit_join_first_candidate (q : Query) (model : class_id)
    (f1 leaf : filter_node) (cs rest : list filter_node) :
  leaf_candidates f1 = leaf :: cs ->
  implicit_join mapper join q model (f1 :: rest)
  = let* q1 := filter_join mapper join model q leaf in
    let* q2 := for_each (filter_join mapper join model) cs q1 in
    implicit_join mapper join q2 model rest.
Proof.
  intros Hcs. rewrite implicit_join_cons, Hcs. simpl.
  by destruct (filter_join mapper join model q leaf).
Qed.

Lemma filter_join_dotted (q : Query) (model : class_id) (leaf : filter_node)
    (fs : gmap string string) (field relation column : string)
    (target : value) :
  filter_spec leaf = Some fs ->
  fs !! "field" = Some field ->
  PyStr.split PyStr.dot field = [relation; column] ->
  getattr mapper model relation = Ok target ->
  filter_join mapper join model q leaf
  = try_except_InvalidRequestError (join q target) q.
Proof.
  intros Hspec Hfield Hsplit Hattr. unfold filter_join.
  rewrite Hspec, Hfield, (split_two_pieces_contains _ _ _ _ Hsplit), Hsplit.
  by rewrite Hattr.
Qed.

(** X11: when the engine accepts the join of a dotted leaf, the joined
    query is the one the walk goes on with: the other candidates of the node
    and the nodes that follow are planned from it. *)
Theorem accepted_join_is_threaded (q q' : Query) (model : class_id)
    (f1 leaf : filter_node) (cs rest : list filter_node)
    (fs : gmap string string) (field relation column : string)
    (target : value) :
  filter_spec leaf = Some fs ->
  fs !! "field" = Some field ->
  PyStr.split PyStr.dot field = [relation; column] ->
  getattr mapper model relation = Ok target ->
  join q target = Ok q' ->
  leaf_candidates f1 = leaf :: cs ->
  implicit_join mapper join q model (f1 :: rest)
  = let* q2 := for_each (filter_join mapper join model) cs q' in
    implicit_join mapper join q2 model rest.
Proof.
  intros Hspec Hfield Hsplit Hattr Hjoin Hcs.
  rewrite (implicit_join_first_candidate _ _ _ _ _ _ Hcs).
  rewrite (filter_join_dotted _ _ _ _ _ _ _ _ Hspec Hfield Hsplit Hattr).
  by rewrite Hjoin.
Qed.

(** X12: an exception of the engine other than [InvalidRequestError] is not
    swallowed: it ends the walk, and the nodes that follow are not
    planned. *)
Theorem engine_error_aborts_walk (q : Query) (model : class_id)
    (f1 leaf : filter_node) (cs rest : list filter_node)
    (fs : gmap string string) (field relation column : string)
    (target : value) (e : exn) :
  filter_spec leaf = Some fs ->
  fs !! "field" = Some field ->
  PyStr.split PyStr.dot field = [relation; column] ->
  getattr mapper model relation = Ok target ->
  join q target = Raise e ->
  e <> InvalidRequestError ->
  leaf_candidates f1 = leaf :: cs ->
  implicit_join mapper join q model (f1 :: rest) = Raise e.
Proof.
  intros Hspec Hfield Hsplit Hattr Hjoin He Hcs.
  rewrite (implicit_join_first_candidate _ _ _ _ _ _ Hcs).
  rewrite (filter_join_dotted _ _ _ _ _ _ _ _ Hspec Hfield Hsplit Hattr).
  rewrite Hjoin. by destruct e.
Qed.

(** X13: a dotted leaf can fail before the engine is asked for anything: a
    first piece that the model binds to nothing raises [AttributeError], and
    a field with a second separator raises [ValueError]; either ends the
    walk, whatever the engine. *)
Theorem leaf_errors_before_join (q : Query) (model : class_id)
    (f1 leaf : filter_node) (cs rest : list filter_node)
    (fs : gmap string string) (field : string) :
  filter_spec leaf = Some fs ->
  fs !! "field" = Some field ->
  leaf_candidates f1 = leaf :: cs ->
  (forall relation column : string,
     PyStr.split PyStr.dot field = [relation; column] ->
     cls_attrs (mapper model) !! relation = None ->
     implicit_join mapper join q model (f1 :: rest)
     = Raise (AttributeError relation))
  /\ (forall a b : string,
        field = a +:+ "." +:+ b ->
        PyStr.contains PyStr.dot b = true ->
        implicit_join mapper join q model (f1 :: rest) = Raise ValueError).
Proof.
  intros Hspec Hfield Hcs. split.
  - intros relation column Hsplit Hnone.
    rewrite (implicit_join_first_candidate _ _ _ _ _ _ Hcs).
    unfold filter_join at 1.
    rewrite Hspec, Hfield, (split_two_pieces_contains _ _ _ _ Hsplit), Hsplit.
    unfold getattr. by rewrite Hnone.
  - intros a b -> Hb.
    rewrite (implicit_join_first_candidate _ _ _ _ _ _ Hcs).
    unfold filter_join at 1. rewrite Hspec, Hfield.
    change ("." +:+ b) with (String PyStr.dot b).
    rewrite contains_relation_field.
    pose proof (split_length_two_seps PyStr.dot a b Hb) as Hlen.
    destruct (PyStr.split PyStr.dot (a +:+ String PyStr.dot b))
      as [|p1 [|p2 [|p3 ps]]]; simpl in Hlen; try lia; done.
Qed.

(** X14: the leaf rule needs a [filter_spec] with a [field]: a combinator
    nested among the children of a combinator, which has no [filter_spec],
    ends the walk with [AttributeError], and a [filter_spec] without
    [field] ends it with [KeyError]. *)
Theorem malformed_candidate_aborts_walk (q : Query) (model : class_id)
    (f1 leaf : filter_node) (cs rest : list filter_node) :
  leaf_candidates f1 = leaf :: cs ->
  (filter_spec leaf = None ->
   implicit_join mapper join q model (f1 :: rest)
   = Raise (AttributeError "filter_spec"))
  /\ (forall fs : gmap string string,
        filter_spec leaf = Some fs ->
        fs !! "field" = None ->
        implicit_join mapper join q model (f1 :: rest)
        = Raise (KeyError "field")).
Proof.
  intros Hcs. split.
  - intros Hspec. rewrite (implicit_join_first_candidate _ _ _ _ _ _ Hcs).
    unfold filter_join at 1. by rewrite Hspec.
  - intros fs Hspec Hfield.
    rewrite (implicit_join_first_candidate _ _ _ _ _ _ Hcs).
    unfold filter_join at 1. by rewrite Hspec, Hfield.
Qed.

End JoinOutcomes.

Lemma implicit_join_group_of_leaves_witness :
  implicit_join Shop.mapper Shop.join (mkQuery [Some Shop.Customer] [])
    Shop.Customer
    [FilterNode None (Some [Shop.leaf "name"; Shop.leaf "orders.total"])]
  = implicit_join Shop.mapper Shop.join (mkQuery [Some Shop.Customer] [])
      Shop.Customer ([Shop.leaf "name"; Shop.leaf "orders.total"] ++ []).
Proof.
  apply implicit_join_group_of_leaves. repeat constructor.
Defined.

Lemma accepted_join_is_threaded_witness :
  implicit_join Shop.mapper Shop.join (mkQuery [Some Shop.Customer] [])
    Shop.Customer [Shop.leaf "orders.total"; Shop.leaf "name"]
  = let* q2 := for_each (filter_join Shop.mapper Shop.join Shop.Customer) []
                 (mkQuery [Some Shop.Customer] [Shop.Order]) in
    implicit_join Shop.mapper Shop.join q2 Shop.Customer [Shop.leaf "name"].
Proof.
  apply (accepted_join_is_threaded Shop.mapper Shop.join
           (mkQuery [Some Shop.Customer] [])
           (mkQuery [Some Shop.Customer] [Shop.Order])
           Shop.Customer (Shop.leaf "orders.total") (Shop.leaf "orders.total")
           [] [Shop.leaf "name"] (<["field" := "orders.total"]> ∅)
           "orders.total" "orders" "total"
           (VRelationshipAttr Shop.Customer "orders" Shop.Order));
    vm_compute; reflexivity.
Defined.

Lemma engine_error_aborts_walk_witness :
  implicit_join Shop.mapper Shop.join (mkQuery [Some Shop.Customer] [])
    Shop.Customer [Shop.leaf "name.x"; Shop.leaf "orders.total"]
  = Raise ArgumentError.
Proof.
  apply (engine_error_aborts_walk Shop.mapper Shop.join
           (mkQuery [Some Shop.Customer] []) Shop.Customer
           (Shop.leaf "name.x") (Shop.leaf "name.x")
           [] [Shop.leaf "orders.total"] (<["field" := "name.x"]> ∅)
           "name.x" "name" "x" (VColumnAttr Shop.Customer "name"));
    try (vm_compute; reflexivity).
  discriminate.
Defined.

Lemma leaf_errors_before_join_witness :
  implicit_join Shop.mapper Shop.join (mkQuery [Some Shop.Customer] [])
    Shop.Customer [Shop.leaf "nope.total"; Shop.leaf "name"]
  = Raise (AttributeError "nope")
  /\ implicit_join Shop.mapper Shop.join (mkQuery [Some Shop.Customer] [])
       Shop.Customer [Shop.leaf "orders.total.x"; Shop.leaf "name"]
     = Raise ValueError.
Proof.
  split.
  - destruct (leaf_errors_before_join Shop.mapper Shop.join
                (mkQuery [Some Shop.Customer] []) Shop.Customer
                (Shop.leaf "nope.total") (Shop.leaf "nope.total")
                [] [Shop.leaf "name"] (<["field" := "nope.total"]> ∅)
                "nope.total") as [Hattr _];
      [vm_compute; reflexivity | vm_compute; reflexivity | reflexivity |].
    apply (Hattr "nope" "total"); vm_compute; reflexivity.
  - destruct (leaf_errors_before_join Shop.mapper Shop.join
                (mkQuery [Some Shop.Customer] []) Shop.Customer
                (Shop.leaf "orders.total.x") (Shop.leaf "orders.total.x")
                [] [Shop.leaf "name"] (<["field" := "orders.total.x"]> ∅)
                "orders.total.x") as [_ Hvalue];
      [vm_compute; reflexivity | vm_compute; reflexivity | reflexivity |].
    apply (Hvalue "orders" "total.x"); reflexivity.
Defined.

Lemma malformed_candidate_aborts_walk_witness :
  implicit_join Shop.mapper Shop.join (mkQuery [Some Shop.Customer] [])
    Shop.Customer
    [Shop.group [Shop.group [Shop.leaf "orders.total"]]; Shop.leaf "name"]
  = Raise (AttributeError "filter_spec")
  /\ implicit_join Shop.mapper Shop.join (mkQuery [Some Shop.Customer] [])
       Shop.Customer [FilterNode (Some ∅) None; Shop.leaf "name"]
     = Raise (KeyError "field").
Proof.
  split.
  - destruct (malformed_candidate_aborts_walk Shop.mapper Shop.join
                (mkQuery [Some Shop.Customer] []) Shop.Customer
                (Shop.group [Shop.group [Shop.leaf "orders.total"]])
                (Shop.group [Shop.leaf "orders.total"]) []
                [Shop.leaf "name"]) as [Hspec _]; [reflexivity|].
    apply Hspec. reflexivity.
  - destruct (malformed_candidate_aborts_walk Shop.mapper Shop.join
                (mkQuery [Some Shop.Customer] []) Shop.Customer
                (FilterNode (Some ∅) None) (FilterNode (Some ∅) None) []
                [Shop.leaf "name"]) as [_ Hfield]; [reflexivity|].
    apply (Hfield ∅); reflexivity.
Defined.

(** ** Named joins: the registry lookup and the outcomes of a join *)

Section NamedJoinOutcomes.

Variable mapper : class_id -> class_desc.
Variable join : Query -> value -> result Query.

(** X15: what the registry lookup returns is [None] or a class; a class it
    returns is an entry of the registry and bears the requested name; and it
    returns [None] exactly when no class of the registry bears the name. *)
Theorem registry_lookup_sound (registry : list registry_entry)
    (name : string) :
  (forall c : class_id,
     get_model_class_by_name mapper registry name = VClass c ->
     RegClass c ∈ registry /\ cls_name (mapper c) = name)
  /\ (get_model_class_by_name mapper registry name = VNone
      <-> forall c : class_id,
            RegClass c ∈ registry -> cls_name (mapper c) <> name)
  /\ (get_model_class_by_name mapper registry name = VNone
      \/ exists c : class_id,
           get_model_class_by_name mapper registry name = VClass c).
Proof.
  induction registry as [|e registry (IHsound & IHnone & IHshape)]; simpl.
  { split; [done|]. split; [|by left]. split; [|done].
    by intros _ c ?%elem_of_nil. }
  destruct e as [c0|]; simpl.
  - destruct (String.eqb (cls_name (mapper c0)) name) eqn:E.
    + apply String.eqb_eq in E. split; [|split].
      * intros c [= <-]. split; [left | done].
      * split; [done|]. intros Habs. exfalso. by apply (Habs c0); [left|].
      * right. by exists c0.
    + apply String.eqb_neq in E. split; [|split].
      * intros c Hc. destruct (IHsound c Hc). split; [by right | done].
      * rewrite IHnone. split.
        -- intros Habs c [[= ->]|Hc]%elem_of_cons; [done | by apply Habs].
        -- intros Habs c Hc. apply Habs. by right.
      * done.
  - split; [|split].
    + intros c Hc. destruct (IHsound c Hc). split; [by right | done].
    + rewrite IHnone. split.
      * intros Habs c [[=]|Hc]%elem_of_cons. by apply Habs.
      * intros Habs c Hc. apply Habs. by right.
    + done.
Qed.

(** X16: [auto_join] on a query without selected and without joined
    entities raises [IndexError], for every list of names, the empty one
    included: the registry is fetched before the names are looked at. *)
Theorem auto_join_empty_query (q : Query) (model_names : list string) :
  column_descriptions q = [] ->
  join_entities q = [] ->
  auto_join mapper join q model_names = Raise IndexError.
Proof.
  intros H1 H2. unfold auto_join.
  assert (get_query_models mapper q = Ok []) as ->
    by (by apply query_models_empty).
  done.
Qed.

(** X17: a name whose join the engine rejects with [InvalidRequestError] is
    passed over: the result is that of the names that follow, on the same
    query. *)
Theorem auto_join_rejection_is_swallowed (q : Query)
    (models : list (string * class_id)) (any_model : class_id)
    (name : string) (rest : list string) :
  get_query_models mapper q = Ok models ->
  last (PyDict.values models) = Some any_model ->
  not_in_query_models mapper
    (get_model_class_by_name mapper (cls_registry (mapper any_model)) name) q
  = Ok true ->
  join q (get_model_class_by_name mapper
            (cls_registry (mapper any_model)) name)
  = Raise InvalidRequestError ->
  auto_join mapper join q (name :: rest) = auto_join mapper join q rest.
Proof.
  intros Hmodels Hlast Hnot Hjoin.
  rewrite !(auto_join_loop mapper join _ _ _ _ Hmodels Hlast). simpl.
  unfold auto_join_step at 1. by rewrite Hnot, Hjoin.
Qed.

(** X18: an exception of the engine other than [InvalidRequestError] ends
    [auto_join]: the names that follow are not processed. *)
Theorem auto_join_engine_error_aborts (q : Query)
    (models : list (string * class_id)) (any_model : class_id)
    (name : string) (rest : list string) (e : exn) :
  get_query_models mapper q = Ok models ->
  last (PyDict.values models) = Some any_model ->
  not_in_query_models mapper
    (get_model_class_by_name mapper (cls_registry (mapper any_model)) name) q
  = Ok true ->
  join q (get_model_class_by_name mapper
            (cls_registry (mapper any_model)) name)
  = Raise e ->
  e <> InvalidRequestError ->
  auto_join mapper join q (name :: rest) = Raise e.
Proof.
  intros Hmodels Hlast Hnot Hjoin He.
  rewrite (auto_join_loop mapper join _ _ _ _ Hmodels Hlast). simpl.
  unfold auto_join_step at 1. rewrite Hnot, Hjoin. by destruct e.
Qed.

(** X19: a name asked for several times is joined once: when the engine
    accepts the join of its class and the class is among the models of the
    joined query, the repetitions of the name leave that query as it is. *)
Theorem auto_join_joins_once (q q' : Query)
    (models models' : list (string * class_id)) (any_model c : class_id)
    (name : string) (rest : list string) :
  get_query_models mapper q = Ok models ->
  last (PyDict.values models) = Some any_model ->
  get_model_class_by_name mapper (cls_registry (mapper any_model)) name
  = VClass c ->
  c ∉ PyDict.values models ->
  join q (VClass c) = Ok q' ->
  get_query_models mapper q' = Ok models' ->
  c ∈ PyDict.values models' ->
  Forall (fun n => n = name) rest ->
  auto_join mapper join q (name :: rest) = Ok q'.
Proof.
  intros Hmodels Hlast Hc Hout Hjoin Hmodels' Hin Hrest.
  rewrite (auto_join_loop mapper join _ _ _ _ Hmodels Hlast). simpl.
  unfold auto_join_step at 1.
  rewrite Hc, (not_in_query_models_absent mapper _ _ _ Hmodels Hout).
  simpl. rewrite Hjoin. simpl.
  induction Hrest as [|n rest -> _ IH]; simpl; [done|].
  by rewrite (auto_join_step_present mapper join _ _ _ _ _ Hc Hmodels' Hin).
Qed.

End NamedJoinOutcomes.

Lemma registry_lookup_sound_witness :
  RegClass Shop.Order ∈ Shop.registry
  /\ cls_name (Shop.mapper Shop.Order) = "Order".
Proof.
  destruct (registry_lookup_sound Shop.mapper Shop.registry "Order")
    as (Hsound & _).
  apply (Hsound Shop.Order). reflexivity.
Defined.

Lemma auto_join_empty_query_witness :
  auto_join Shop.mapper Shop.join (mkQuery [] []) [] = Raise IndexError.
Proof.
  apply auto_join_empty_query; reflexivity.
Defined.

Lemma auto_join_rejection_is_swallowed_witness :
  auto_join Shop.mapper Shop.join
    (mkQuery [Some Shop.Order] [Shop.OrderTwin]) ["Order"; "Invoice"]
  = auto_join Shop.mapper Shop.join
      (mkQuery [Some Shop.Order] [Shop.OrderTwin]) ["Invoice"].
Proof.
  apply (auto_join_rejection_is_swallowed Shop.mapper Shop.join
           (mkQuery [Some Shop.Order] [Shop.OrderTwin])
           [("Order", Shop.OrderTwin)] Shop.OrderTwin);
    vm_compute; reflexivity.
Defined.

Lemma auto_join_engine_error_aborts_witness :
  auto_join Shop.mapper Shop.broken_join (mkQuery [Some Shop.Customer] [])
    ["Order"; "Invoice"]
  = Raise (EngineError 1).
Proof.
  apply (auto_join_engine_error_aborts Shop.mapper Shop.broken_join
           (mkQuery [Some Shop.Customer] []) [("Customer", Shop.Customer)]
           Shop.Customer);
    [vm_compute; reflexivity | vm_compute; reflexivity
    | vm_compute; reflexivity | vm_compute; reflexivity | discriminate].
Defined.

Lemma auto_join_joins_once_witness :
  auto_join Shop.mapper Shop.join (mkQuery [Some Shop.Customer] [])
    ["Order"; "Order"; "Order"]
  = Ok (mkQuery [Some Shop.Customer] [Shop.Order]).
Proof.
  apply (auto_join_joins_once Shop.mapper Shop.join
           (mkQuery [Some Shop.Customer] [])
           (mkQuery [Some Shop.Customer] [Shop.Order])
           [("Customer", Shop.Customer)]
           [("Customer", Shop.Customer); ("Order", Shop.Order)]
           Shop.Customer Shop.Order).
  - vm_compute. reflexivity.
  - vm_compute. reflexivity.
  - vm_compute. reflexivity.
  - apply (bool_decide_unpack _). vm_compute. exact I.
  - vm_compute. reflexivity.
  - vm_compute. reflexivity.
  - apply (bool_decide_unpack _). vm_compute. exact I.
  - repeat constructor.
Defined.

(** ** Filters that need no join *)

Section UndottedFilters.

Variable mapper : class_id -> class_desc.
Variable join : Query -> value -> result Query.

(** X20: when every leaf candidate of the walk has a [field] without
    separator, [implicit_join] returns the query it was given, whatever the
    engine would answer: the engine is not asked for any join. *)
Theorem implicit_join_undotted_is_identity (q : Query) (model : class_id)
    (nodes : list filter_node) :
  Forall (fun leaf =>
            exists (fs : gmap string string) (field : string),
              filter_spec leaf = Some fs
              /\ fs !! "field" = Some field
              /\ PyStr.contains PyStr.dot field = false)
         (concat (map leaf_candidates nodes)) ->
  implicit_join mapper join q model nodes = Ok q.
Proof.
  rewrite implicit_join_flat.
  induction 1 as [|leaf cs (fs & field & Hspec & Hfield & Hdot) _ IH];
    simpl; [done|].
  unfold filter_join at 1. by rewrite Hspec, Hfield, Hdot.
Qed.

End UndottedFilters.

Lemma implicit_join_undotted_is_identity_witness :
  implicit_join Shop.mapper Shop.join (mkQuery [Some Shop.Customer] [])
    Shop.Customer [Shop.leaf "name"; Shop.group [Shop.leaf "id"]]
  = Ok (mkQuery [Some Shop.Customer] []).
Proof.
  apply implicit_join_undotted_is_identity. simpl.
  repeat constructor.
  - exists (<["field" := "name"]> ∅), "name".
    repeat split; vm_compute; reflexivity.
  - exists (<["field" := "id"]> ∅), "id".
    repeat split; vm_compute; reflexivity.
Defined.
